(** * Heritage archive search assistant: the refinement middleware and the chat panel

    A shallow embedding of

    - [SearchRefinementMiddleware] (class body given in AGENT_REDESIGN_PLAN.md,
      section "Custom Middleware for Search Refinement"): [_evaluate_results]
      and [wrap_tool_call], with the agent loop that the system prompt of the
      same document prescribes around them;
    - [handleSend] and [normalizeFileUri] of
      frontend/src/components/ChatPanelV2.tsx;
    - the response contract [SearchResponse] of the plan, with the intent
      dispatch and the response formatter of agent_v2.py and ai_search_v2.py,
      which are modelled from the specification.

    Conventions.  Python [int] is [Z]; Python and JavaScript floats are
    binary64 primitive floats; a Python [dict] with a fixed schema is a record
    whose optional keys are [option] fields; text is [string], one character
    per code unit; exceptions are values of a sum type threaded by a small
    state-and-error monad; calls to loggers and to the console are left out. *)

From Stdlib Require Import ZArith List String Ascii Bool Lia.
From Stdlib Require Import Floats.PrimFloat.
From Stdlib Require Import DecimalString.
From Stdlib Require Import DecimalZ DecimalPos Permutation.
Import ListNotations.

Set Warnings "-inexact-float".
#[local] Open Scope Z_scope.
#[local] Open Scope string_scope.

(* ===================================================================== *)
(** ** Data on the wire                                                   *)
(* ===================================================================== *)

(** A JavaScript value as far as [normalizeFileUri] looks into it:
    [undefined], [null], a string, or an object, given by its [publicUrl] and
    [data] properties ([JsUndefined] when the property is missing). *)
Inductive JsValue : Type :=
| JsUndefined
| JsNull
| JsString (s : string)
| JsObject (publicUrl : JsValue) (data : JsValue).

(** One archive of a search result: the dict of the tool's [archives] list,
    which is also the [ArchiveResponse] object the chat panel receives.  The
    middleware reads the key ["similarity"] only, through
    [archive.get("similarity", 0)]; the chat panel reads the other keys and
    guards [description], [dates], [tags], [file_uris] and [storage_paths]
    against absence. *)
Record Archive : Type := mkArchive {
  archive_id : string;
  archive_title : string;
  archive_description : option string;
  archive_media_types : list string;
  archive_dates : option (list string);
  archive_created_at : string;
  archive_tags : option (list string);
  archive_file_uris : option (list JsValue);
  archive_storage_paths : option (list JsValue);
  similarity : option float
}.

(* ===================================================================== *)
(** ** Part I.  backend/app/services/ai_search/middleware.py             *)
(* ===================================================================== *)

Module Middleware.

(** What [handler(request)] evaluates to: the tool's
    [(formatted_string, archives)] tuple, or any value that is not a tuple
    (the "tool format changes" branch of [wrap_tool_call]). *)
Inductive ToolValue : Type :=
| VTuple (formatted_string : string) (archives : list Archive)
| VOther (payload : string).

(** A raised Python exception. *)
Record PyExn : Type := mkExn { exn_class : string; exn_message : string }.

(** [request.tool_call]: a dict with keys ["name"], ["args"] and ["id"];
    ["name"] and ["args"]["query"] are read with [.get]. *)
Record ToolCall : Type := mkToolCall {
  tc_name : option string;
  tc_args_query : option string;
  tc_id : string
}.

(** [request]; its [state] attribute is the shared agent state, which the
    monad below threads. *)
Record ToolRequest : Type := mkRequest { tool_call : ToolCall }.

(** [SearchRefinementState]: the four keys the middleware adds to the agent
    state.  [None] is an absent key (for [original_user_query], absent or
    [None]: [state.get] does not tell them apart). *)
Record SearchRefinementState : Type := mkState {
  search_attempt_count : option Z;
  original_user_query : option string;
  previous_queries_tried : option (list (option string));
  best_results : option (list Archive)
}.

Definition fresh_state : SearchRefinementState :=
  {| search_attempt_count := None;
     original_user_query := None;
     previous_queries_tried := None;
     best_results := None |}.

(** An f-string, kept as the sequence of its literal pieces and of the values
    interpolated between them. *)
Inductive Fragment : Type :=
| Lit (text : string)
| FmtLen (n : nat)                          (* {len(archives)}       *)
| FmtQueries (qs : list (option string))    (* {previous_queries}    *)
| FmtQuery (q : option string).             (* {original_query}      *)

Record ToolMessage : Type := mkToolMessage {
  content : list Fragment;
  tool_call_id : string
}.

(** The two kinds of value [wrap_tool_call] returns. *)
Inductive Reply : Type :=
| ToolResult (result : ToolValue)
| RefinementRequest (message : ToolMessage).

(** [self]: the two attributes set by [__init__]. *)
Record SearchRefinementMiddleware : Type := mkMiddleware {
  max_attempts : Z;
  min_similarity_threshold : float
}.

(** [__init__(self, max_attempts: int = 3, min_similarity_threshold: float = 0.4)];
    [None] takes the default of the signature. *)
Definition __init__ (max_attempts_arg : option Z) (threshold_arg : option float)
  : SearchRefinementMiddleware :=
  {| max_attempts := match max_attempts_arg with Some n => n | None => 3 end;
     min_similarity_threshold :=
       match threshold_arg with Some t => t | None => 0.4%float end |}.

(** *** The store and its monad *)

(** The mutable world of one agent run: the agent state, and the requests that
    reached the original tool handler, oldest first. *)
Record Store : Type := mkStore {
  agent_state : SearchRefinementState;
  tool_log : list ToolRequest
}.

(** The original tool handler, seen at one invocation: it raises or returns. *)
Definition Handler : Type := ToolRequest -> PyExn + ToolValue.

Definition M (A : Type) : Type := Store -> Store * (PyExn + A).

Definition ret {A : Type} (a : A) : M A := fun s => (s, inr a).

Definition bind {A B : Type} (m : M A) (k : A -> M B) : M B :=
  fun s => match m s with
           | (s', inl e) => (s', inl e)
           | (s', inr a) => k a s'
           end.

Notation "x <- m ;; k" := (bind m (fun x => k))
  (at level 61, m at next level, right associativity).
Notation "m ;;; k" := (bind m (fun _ => k))
  (at level 61, right associativity).

(** [state = request.state] followed by reads of [state]. *)
Definition read_state : M SearchRefinementState :=
  fun s => (s, inr (agent_state s)).

Definition write_state (f : SearchRefinementState -> SearchRefinementState)
  : M unit :=
  fun s => ({| agent_state := f (agent_state s); tool_log := tool_log s |},
            inr tt).

(** [handler(request)]: the request reaches the tool, whose exception, if any,
    propagates. *)
Definition call (handler : Handler) (request : ToolRequest) : M ToolValue :=
  fun s => ({| agent_state := agent_state s;
               tool_log := (tool_log s ++ [request])%list |},
            handler request).

(** [state["original_user_query"] = q] *)
Definition set_original_user_query (q : option string)
  (st : SearchRefinementState) : SearchRefinementState :=
  {| search_attempt_count := search_attempt_count st;
     original_user_query := q;
     previous_queries_tried := previous_queries_tried st;
     best_results := best_results st |}.

(** [state["search_attempt_count"] = n] *)
Definition set_search_attempt_count (n : Z)
  (st : SearchRefinementState) : SearchRefinementState :=
  {| search_attempt_count := Some n;
     original_user_query := original_user_query st;
     previous_queries_tried := previous_queries_tried st;
     best_results := best_results st |}.

(** [state["previous_queries_tried"] = qs] *)
Definition set_previous_queries_tried (qs : list (option string))
  (st : SearchRefinementState) : SearchRefinementState :=
  {| search_attempt_count := search_attempt_count st;
     original_user_query := original_user_query st;
     previous_queries_tried := Some qs;
     best_results := best_results st |}.

(** [state.get("search_attempt_count", 0)] *)
Definition get_attempt_count (st : SearchRefinementState) : Z :=
  match search_attempt_count st with Some n => n | None => 0 end.

(** [state.get("previous_queries_tried", [])] *)
Definition get_previous_queries (st : SearchRefinementState)
  : list (option string) :=
  match previous_queries_tried st with Some qs => qs | None => [] end.

(** *** The two methods *)

(** [archive.get("similarity", 0)] *)
Definition get_similarity (archive : Archive) : float :=
  match similarity archive with Some s => s | None => 0%float end.

(** [_evaluate_results(self, archives)]:
    [if not archives: return False], then
    [any(archive.get("similarity", 0) >= self.min_similarity_threshold ...)]. *)
Definition _evaluate_results (self : SearchRefinementMiddleware)
  (archives : list Archive) : bool :=
  match archives with
  | [] => false
  | _ :: _ =>
      existsb
        (fun archive =>
           (min_similarity_threshold self <=? get_similarity archive)%float)
        archives
  end.

(** [request.tool_call.get("name") != "search_archives_db"] *)
Definition is_search_call (request : ToolRequest) : bool :=
  match tc_name (tool_call request) with
  | Some n => String.eqb n "search_archives_db"
  | None => false
  end.

(** [if isinstance(result, tuple): formatted_string, archives = result]
    [else: archives = []] *)
Definition archives_of (result : ToolValue) : list Archive :=
  match result with
  | VTuple _ archives => archives
  | VOther _ => []
  end.

(** The f-string of the refinement request. *)
Definition refinement_content (found : nat)
  (previous_queries : list (option string)) (original_query : option string)
  : list Fragment :=
  [ Lit "Search found "; FmtLen found;
    Lit " results but they may not be relevant (low similarity scores or empty). ";
    Lit "Previous queries tried: "; FmtQueries previous_queries; Lit ". ";
    Lit "Please analyze the original intent '"; FmtQuery original_query;
    Lit "' and generate a DIFFERENT refined query. ";
    Lit "Consider: broadening terms, using synonyms, or adding cultural context." ].

(** [wrap_tool_call(self, request, handler)], statement by statement.
    [previous_queries.append] works on the list held by the state when the key
    is there; nothing can raise between the append and the assignment that
    stores the list, so the model appends to the local value. *)
Definition wrap_tool_call (self : SearchRefinementMiddleware)
  (request : ToolRequest) (handler : Handler) : M Reply :=
  if negb (is_search_call request) then
    result <- call handler request ;;
    ret (ToolResult result)
  else
    state <- read_state ;;
    let attempt_count := get_attempt_count state in
    let original_query := original_user_query state in
    let previous_queries := get_previous_queries state in
    original_query <-
      (if (attempt_count =? 0)%Z then
         let q := tc_args_query (tool_call request) in
         write_state (set_original_user_query q) ;;; ret q
       else ret original_query) ;;
    result <- call handler request ;;
    let current_query := tc_args_query (tool_call request) in
    let previous_queries := (previous_queries ++ [current_query])%list in
    let archives := archives_of result in
    let results_good_enough := _evaluate_results self archives in
    write_state (set_search_attempt_count (attempt_count + 1)) ;;;
    write_state (set_previous_queries_tried previous_queries) ;;;
    if results_good_enough || (attempt_count + 1 >=? max_attempts self)%Z then
      ret (ToolResult result)
    else
      ret (RefinementRequest
             {| content :=
                  refinement_content (List.length archives) previous_queries
                    original_query;
                tool_call_id := tc_id (tool_call request) |}).

(** *** The two states a search call can leave behind *)

(** The state a search call leaves behind when the tool raised: only the
    original query may have been stored. *)
Definition state_before_search (request : ToolRequest)
  (st : SearchRefinementState) : SearchRefinementState :=
  if (get_attempt_count st =? 0)%Z
  then set_original_user_query (tc_args_query (tool_call request)) st
  else st.

(** The state a search call leaves behind when the tool returned. *)
Definition state_after_search (request : ToolRequest)
  (st : SearchRefinementState) : SearchRefinementState :=
  set_previous_queries_tried
    (get_previous_queries st ++ [tc_args_query (tool_call request)])%list
    (set_search_attempt_count (get_attempt_count st + 1)
       (state_before_search request st)).

End Middleware.

(* ===================================================================== *)
(** ** Part II.  The agent loop around the middleware                     *)
(* ===================================================================== *)

(** The system prompt of the plan fixes the agent's workflow: "3. Call
    search_archives_db with the query.  4. If tool returns a refinement
    request: Generate a DIFFERENT refined query and search again.  5. Return
    structured results or helpful message".  A session is that loop: the
    agent calls the tool through [wrap_tool_call]; a refinement request makes
    it call again with the query it then generates; a tool result, or an
    exception, ends the loop. *)
Module Session.
Import Middleware.

(** The language model in its query-refinement role: from the agent state and
    the refinement request, the next query and the id of the next tool call. *)
Definition Agent : Type :=
  SearchRefinementState -> ToolMessage -> option string * string.

(** The search tool as the session meets it: its behaviour at the [k]-th
    invocation of the run, counted from [0]. *)
Definition Env : Type := nat -> Handler.

Definition search_request (query : option string) (id : string) : ToolRequest :=
  {| tool_call := {| tc_name := Some "search_archives_db";
                     tc_args_query := query;
                     tc_id := id |} |}.

Inductive Config : Type :=
| AgentCalls (s : Store) (request : ToolRequest)
| AgentHolds (s : Store) (result : ToolValue)
| ToolFailed (s : Store) (e : PyExn).

Definition store_of (c : Config) : Store :=
  match c with
  | AgentCalls s _ | AgentHolds s _ | ToolFailed s _ => s
  end.

Definition session_step (self : SearchRefinementMiddleware) (env : Env)
  (agent : Agent) (c : Config) : Config :=
  match c with
  | AgentCalls s request =>
      match wrap_tool_call self request (env (List.length (tool_log s))) s with
      | (s', inl e) => ToolFailed s' e
      | (s', inr (ToolResult result)) => AgentHolds s' result
      | (s', inr (RefinementRequest message)) =>
          let (query, id) := agent (agent_state s') message in
          AgentCalls s' (search_request query id)
      end
  | AgentHolds _ _ | ToolFailed _ _ => c
  end.

(** A session starts on a fresh state with the first generated query. *)
Definition session_start (query : option string) (id : string) : Config :=
  AgentCalls {| agent_state := fresh_state; tool_log := [] |}
             (search_request query id).

(** The session after [n] turns of the loop. *)
Definition session_after (self : SearchRefinementMiddleware) (env : Env)
  (agent : Agent) (query : option string) (id : string) (n : nat) : Config :=
  Nat.iter n (session_step self env agent) (session_start query id).

(** [attemptCount]: the counter the middleware keeps. *)
Definition attemptCount (c : Config) : Z :=
  get_attempt_count (agent_state (store_of c)).

(** The search invocations executed so far: the requests for
    [search_archives_db] that reached the tool. *)
Definition searches_executed (c : Config) : list ToolRequest :=
  filter is_search_call (tool_log (store_of c)).

(** [queriesTried] *)
Definition queriesTried (c : Config) : list (option string) :=
  get_previous_queries (agent_state (store_of c)).

(** [bestResultSet] *)
Definition bestResultSet (c : Config) : list Archive :=
  match best_results (agent_state (store_of c)) with
  | Some l => l
  | None => []
  end.

Definition is_terminal (c : Config) : bool :=
  match c with
  | AgentCalls _ _ => false
  | AgentHolds _ _ | ToolFailed _ _ => true
  end.

(** The result items the finished session hands to its caller. *)
Definition surfaced_items (c : Config) : list Archive :=
  match c with
  | AgentHolds _ (VTuple _ archives) => archives
  | _ => []
  end.

(** The text the finished session hands to its caller. *)
Definition surfaced_text (c : Config) : option string :=
  match c with
  | AgentHolds _ (VTuple formatted_string _) => Some formatted_string
  | AgentHolds _ (VOther payload) => Some payload
  | _ => None
  end.

(** *** The session properties of the specification, as it words them *)

(** Attempt bound: [attemptCount <= maxAttempts] after every step of the
    loop, and at most [maxAttempts] search invocations. *)
Definition attempt_bound (self : SearchRefinementMiddleware) (env : Env)
  (agent : Agent) (query : option string) (id : string) : Prop :=
  forall n : nat,
    let c := session_after self env agent query id n in
    attemptCount c <= max_attempts self /\
    Z.of_nat (List.length (searches_executed c)) <= max_attempts self.

(** Query novelty: the entries of [queriesTried] are pairwise distinct. *)
Definition query_novelty (self : SearchRefinementMiddleware) (env : Env)
  (agent : Agent) (query : option string) (id : string) : Prop :=
  forall n : nat, NoDup (queriesTried (session_after self env agent query id n)).


(** The generator never returns a query that was already tried. *)
Definition generates_new_queries (agent : Agent) : Prop :=
  forall (st : SearchRefinementState) (m : ToolMessage),
    ~ In (fst (agent st m)) (get_previous_queries st).

(** One turn of the loop on a search request, by the tool's behaviour. *)
Inductive turn_spec (self : SearchRefinementMiddleware) (env : Env)
  (agent : Agent) (s : Store) (request : ToolRequest) : Config -> Prop :=
| turn_failed (e : PyExn) :
    env (List.length (tool_log s)) request = inl e ->
    turn_spec self env agent s request
      (ToolFailed {| agent_state := state_before_search request (agent_state s);
                     tool_log := (tool_log s ++ [request])%list |} e)
| turn_done (result : ToolValue) :
    env (List.length (tool_log s)) request = inr result ->
    _evaluate_results self (archives_of result) = true \/
    max_attempts self <= get_attempt_count (agent_state s) + 1 ->
    turn_spec self env agent s request
      (AgentHolds {| agent_state := state_after_search request (agent_state s);
                     tool_log := (tool_log s ++ [request])%list |} result)
| turn_refine (result : ToolValue) (m : ToolMessage) :
    env (List.length (tool_log s)) request = inr result ->
    _evaluate_results self (archives_of result) = false ->
    get_attempt_count (agent_state s) + 1 < max_attempts self ->
    turn_spec self env agent s request
      (AgentCalls {| agent_state := state_after_search request (agent_state s);
                     tool_log := (tool_log s ++ [request])%list |}
                  (search_request
                     (fst (agent (state_after_search request (agent_state s)) m))
                     (snd (agent (state_after_search request (agent_state s)) m)))).

(** *** Invariants of the loop *)

(** Every request that reached the tool was a search, the counter equals
    their number, and the agent calls again only below the budget. *)
Definition within_budget (self : SearchRefinementMiddleware) (c : Config)
  : Prop :=
  Forall (fun r => is_search_call r = true) (tool_log (store_of c)) /\
  match c with
  | AgentCalls s request =>
      is_search_call request = true /\
      get_attempt_count (agent_state s) = Z.of_nat (List.length (tool_log s)) /\
      get_attempt_count (agent_state s) < max_attempts self
  | AgentHolds s _ | ToolFailed s _ =>
      get_attempt_count (agent_state s) <= max_attempts self /\
      Z.of_nat (List.length (tool_log s)) <= max_attempts self
  end.

(** The queries tried are pairwise distinct, and the query about to be sent
    is not one of them. *)
Definition novel (c : Config) : Prop :=
  NoDup (queriesTried c) /\
  match c with
  | AgentCalls s request =>
      is_search_call request = true /\
      ~ In (tc_args_query (tool_call request)) (queriesTried c)
  | AgentHolds _ _ | ToolFailed _ _ => True
  end.

End Session.

(* ===================================================================== *)
(** ** Part III.  Intent dispatch and the response contract               *)
(* ===================================================================== *)

Module Backend.
Import Middleware.

(** The four intent categories of the plan ("Classification Categories"). *)
Inductive Intent : Type := HERITAGE_SEARCH | UNCLEAR | UNRELATED | GREETING.

(** The fixed responses of the plan ("Agent Response by Category" and
    "Retry Limits"). *)
Definition UNCLEAR_MESSAGE : string :=
  "Could you please provide more details about what heritage materials you're looking for? For example, you could specify a type (batik, crafts, architecture), location, or time period.".

Definition UNRELATED_MESSAGE : string :=
  "I can only help you search for heritage archive materials such as traditional crafts, cultural artifacts, historical documents, and cultural media. How can I assist you with heritage materials today?".

Definition GREETING_MESSAGE : string :=
  "Hello! I'm here to help you search our heritage archive. What cultural materials or historical items would you like to explore?".

Definition EXHAUSTED_MESSAGE : string :=
  "I couldn't find relevant heritage materials matching your query. Try describing what you're looking for in different words, or browse our collection for inspiration.".

(** [class SearchResponse(BaseModel)] of the plan ("Response Model Update"),
    which is also the [AISearchResponse] object the chat panel receives. *)
Record SearchResponse : Type := mkSearchResponse {
  response_type : string;
  archives : list Archive;
  total : Z;
  query : string;
  message : option string
}.

(** Modelled from the spec: the [SearchOutcome] value object of section 3,
    returned by the Refinement Controller of agent_v2.py, which is not among
    the sources: a tagged union of a result set and a message. *)
Inductive SearchOutcome : Type :=
| Results (items : list Archive)
| Message (text : string).

(** Modelled from the spec: the Response Formatter of ai_search_v2.py, which
    is not among the sources.  "Maps SearchOutcome ... to the external wire
    contract": a results response for a non-empty [Results], a message
    response otherwise; "empty-results case collapses to message"; [total] is
    [archives.length]; [query] is the user utterance. *)
Definition format_response (utterance : string) (outcome : SearchOutcome)
  : SearchResponse :=
  match outcome with
  | Results ((_ :: _) as items) =>
      {| response_type := "results";
         archives := items;
         total := Z.of_nat (List.length items);
         query := utterance;
         message := None |}
  | Results [] =>
      {| response_type := "message";
         archives := [];
         total := 0;
         query := utterance;
         message := Some EXHAUSTED_MESSAGE |}
  | Message text =>
      {| response_type := "message";
         archives := [];
         total := 0;
         query := utterance;
         message := Some text |}
  end.

(** Modelled from the spec: the CLASSIFYING state of the Refinement
    Controller, whose code (agent_v2.py) is not among the sources.  "If
    intent is not HERITAGE_SEARCH, transition directly to TERMINAL_MESSAGE
    with a fixed per-intent canned response - no search executes."  The
    classifier and the search path are the controller's collaborators. *)
Definition refinement_controller (classify : string -> Intent)
  (search_path : string -> M SearchOutcome) (utterance : string)
  : M SearchOutcome :=
  match classify utterance with
  | HERITAGE_SEARCH => search_path utterance
  | UNCLEAR => ret (Message UNCLEAR_MESSAGE)
  | UNRELATED => ret (Message UNRELATED_MESSAGE)
  | GREETING => ret (Message GREETING_MESSAGE)
  end.

(** Modelled from the spec: the inbound interface
    [search(utterance) -> SearchResponse] (section 6), the controller
    followed by the formatter. *)
Definition search (classify : string -> Intent)
  (search_path : string -> M SearchOutcome) (utterance : string)
  : M SearchResponse :=
  bind (refinement_controller classify search_path utterance)
       (fun outcome => ret (format_response utterance outcome)).

(** The fixed response of an intent that is not a search. *)
Definition canned_response (intent : Intent) : option string :=
  match intent with
  | HERITAGE_SEARCH => None
  | UNCLEAR => Some UNCLEAR_MESSAGE
  | UNRELATED => Some UNRELATED_MESSAGE
  | GREETING => Some GREETING_MESSAGE
  end.

(** The response-exclusivity invariant, in the words of the specification:
    [response_type == "results"] iff [archives.length > 0] iff
    [message == null]. *)
Definition response_exclusive (r : SearchResponse) : Prop :=
  (response_type r = "results" <-> archives r <> []) /\
  (archives r <> [] <-> message r = None).

End Backend.

(* ===================================================================== *)
(** ** Part IV.  frontend/src/components/ChatPanelV2.tsx                  *)
(* ===================================================================== *)

Module ChatPanel.
Import Backend.

(** *** JavaScript strings *)

(** The white space and line terminators [String.prototype.trim] strips,
    among the code units a [string] character can hold: TAB, LF, VT, FF, CR,
    SPACE and NO-BREAK SPACE. *)
Definition is_js_whitespace (c : ascii) : bool :=
  let n := nat_of_ascii c in
  (Nat.leb 9 n && Nat.leb n 13) || Nat.eqb n 32 || Nat.eqb n 160.

Fixpoint trimStart (s : string) : string :=
  match s with
  | EmptyString => EmptyString
  | String c rest => if is_js_whitespace c then trimStart rest else s
  end.

Fixpoint trimEnd (s : string) : string :=
  match s with
  | EmptyString => EmptyString
  | String c rest =>
      match trimEnd rest with
      | EmptyString =>
          if is_js_whitespace c then EmptyString else String c EmptyString
      | kept => String c kept
      end
  end.

(** [s.trim()] *)
Definition trim (s : string) : string := trimEnd (trimStart s).

(** [a || b] on strings: the empty string is falsy. *)
Definition or_else (a b : string) : string :=
  match a with EmptyString => b | _ => a end.

(** [a || b] where [a] is [string | null | undefined]. *)
Definition opt_or_else (a : option string) (b : string) : string :=
  match a with Some s => or_else s b | None => b end.

(** [n.toString()] for an integer, and a length inside a template literal. *)
Definition toString (n : Z) : string := NilZero.string_of_int (Z.to_int n).
Definition nat_toString (n : nat) : string :=
  NilZero.string_of_uint (Nat.to_uint n).

(** *** [normalizeFileUri] *)

Definition js_truthy (v : JsValue) : bool :=
  match v with
  | JsUndefined | JsNull | JsString EmptyString => false
  | _ => true
  end.

(** The string case of [normalizeFileUri]: a full URL is kept, a relative
    path is dropped. *)
Definition normalize_string (uri : string) : option string :=
  if String.prefix "http://" uri || String.prefix "https://" uri
  then Some uri else None.

(** [normalizeFileUri(uri)].  In the object case
    [extractedUrl = maybeObject.publicUrl ?? maybeObject.data?.publicUrl]
    and the function calls itself on a truthy [extractedUrl]. *)
Fixpoint normalizeFileUri (uri : JsValue) : option string :=
  match uri with
  | JsUndefined | JsNull => None
  | JsString s =>
      if js_truthy uri then normalize_string s else None
  | JsObject publicUrl data =>
      match publicUrl with
      | JsUndefined | JsNull =>
          match data with
          | JsObject inner _ =>
              if js_truthy inner then normalizeFileUri inner else None
          | JsUndefined | JsNull | JsString _ => None
          end
      | JsString _ | JsObject _ _ =>
          if js_truthy publicUrl then normalizeFileUri publicUrl else None
      end
  end.

(** *** Types of App.tsx *)

Inductive Role : Type := user | assistant.

(** A browser [File], as far as [handleSend] reads it. *)
Record File : Type := mkFile { file_name : string; file_type : string }.

Record Attachment : Type := mkAttachment {
  att_name : string;
  att_url : string;
  att_type : string
}.

Record ArchiveItem : Type := mkArchiveItem {
  item_id : string;
  item_title : string;
  item_description : string;
  item_type : string;
  item_date : string;
  item_tags : list string;
  item_fileUrl : string;
  item_thumbnail : string;
  item_file_uris : list string
}.

Record ChatMessage : Type := mkChatMessage {
  msg_id : string;
  msg_role : Role;
  msg_content : string;
  msg_timestamp : Z;
  msg_files : option (list Attachment);
  msg_archiveResults : option (list ArchiveItem)
}.

(** The [useState] cells of [ChatPanel] that [handleSend] reads or writes,
    with the [messages] prop. *)
Record PanelState : Type := mkPanel {
  messages : list ChatMessage;
  input : string;
  selectedFiles : list File;
  isTyping : bool
}.

(** What [aiSearchArchives] rejects with: an [Error] with its message, or any
    other thrown value. *)
Inductive Thrown : Type :=
| ThrownError (error_message : string)
| ThrownOther.

(** The surroundings of one call of [handleSend]: the successive readings of
    the clock ([Date.now()] and [new Date()], in call order),
    [URL.createObjectURL] at its successive calls, and the outcome of the
    search request. *)
Record Browser : Type := mkBrowser {
  clock : nat -> Z;
  createObjectURL : nat -> File -> string;
  aiSearchArchives : string -> Thrown + SearchResponse
}.

Inductive ToastKind : Type := toast_success | toast_info | toast_error.

(** What [handleSend] does to the world, in order. *)
Inductive Action : Type :=
| SetInput (value : string)
| SetSelectedFiles (value : list File)
| AppendMessage (m : ChatMessage)       (* setMessages(prev => [...prev, m]) *)
| SetIsTyping (value : bool)
| CallApi (queryText : string)          (* aiSearchArchives(queryText)      *)
| Toast (kind : ToastKind) (text : string).

(** *** [handleSend] *)

(** [(archive.file_uris || archive.storage_paths || [])]: an array, even an
    empty one, is truthy. *)
Definition uris_of (archive : Archive) : list JsValue :=
  match archive_file_uris archive with
  | Some l => l
  | None =>
      match archive_storage_paths archive with
      | Some l => l
      | None => []
      end
  end.

(** [xs.map(normalizeFileUri).filter((uri) => !!uri)] *)
Fixpoint normalize_all (uris : list JsValue) : list string :=
  match uris with
  | [] => []
  | uri :: rest =>
      match normalizeFileUri uri with
      | Some ((String _ _) as url) => url :: normalize_all rest
      | Some EmptyString | None => normalize_all rest
      end
  end.

(** [xs[0] || fallback] *)
Definition first_or (xs : list string) (fallback : string) : string :=
  match xs with
  | x :: _ => or_else x fallback
  | [] => fallback
  end.

(** The callback of [result.archives.map]. *)
Definition toArchiveItem (archive : Archive) : ArchiveItem :=
  let normalizedUris := normalize_all (uris_of archive) in
  let fileUrl := first_or normalizedUris "https://via.placeholder.com/400" in
  {| item_id := archive_id archive;
     item_title := archive_title archive;
     item_description := opt_or_else (archive_description archive) EmptyString;
     item_type := first_or (archive_media_types archive) "image";
     item_date :=
       first_or (match archive_dates archive with Some l => l | None => [] end)
                (archive_created_at archive);
     item_tags := match archive_tags archive with Some l => l | None => [] end;
     item_fileUrl := fileUrl;
     item_thumbnail := fileUrl;
     item_file_uris := normalizedUris |}.

(** [selectedFiles.map((file) => ({name, url: URL.createObjectURL(file), type}))] *)
Fixpoint attach (browser : Browser) (k : nat) (files : list File)
  : list Attachment :=
  match files with
  | [] => []
  | file :: rest =>
      {| att_name := file_name file;
         att_url := createObjectURL browser k file;
         att_type := file_type file |} :: attach browser (S k) rest
  end.

(** The [try] block after the request resolved with [result]. *)
Definition on_result (browser : Browser) (result : SearchResponse)
  : list Action :=
  if String.eqb (response_type result) "message" then
    [ AppendMessage
        {| msg_id := toString (clock browser 2 + 1);
           msg_role := assistant;
           msg_content :=
             opt_or_else (message result)
                         "I can help you search our heritage archive.";
           msg_timestamp := clock browser 3;
           msg_files := None;
           msg_archiveResults := None |} ]
  else
    let searchResults := map toArchiveItem (archives result) in
    [ AppendMessage
        {| msg_id := toString (clock browser 2 + 1);
           msg_role := assistant;
           msg_content := opt_or_else (message result) EmptyString;
           msg_timestamp := clock browser 3;
           msg_files := None;
           msg_archiveResults :=
             match searchResults with
             | _ :: _ => Some searchResults
             | [] => None
             end |};
      match searchResults with
      | _ :: _ =>
          Toast toast_success
            ("Found " ++ nat_toString (List.length searchResults)
                      ++ " matching archive(s)")
      | [] =>
          Toast toast_info
            (opt_or_else (message result)
                         "No matching archives found. Try different keywords.")
      end ].

(** The [catch] block. *)
Definition on_error (browser : Browser) (error : Thrown) : list Action :=
  [ AppendMessage
      {| msg_id := toString (clock browser 2 + 1);
         msg_role := assistant;
         msg_content :=
           "Sorry, search failed: "
             ++ match error with
                | ThrownError error_message => error_message
                | ThrownOther => "Unknown error"
                end
             ++ ". Please try again.";
         msg_timestamp := clock browser 3;
         msg_files := None;
         msg_archiveResults := None |};
    Toast toast_error "Search failed. Please try again." ].

(** [handleSend], with the values of [input] and [selectedFiles] its closure
    captured. *)
Definition handleSend (browser : Browser) (panel : PanelState) : list Action :=
  let queryText := trim (input panel) in
  if match queryText with EmptyString => true | _ => false end
     && Nat.eqb (List.length (selectedFiles panel)) 0
  then []
  else
    let userMessage :=
      {| msg_id := toString (clock browser 0);
         msg_role := user;
         msg_content := or_else queryText "Uploaded files for analysis";
         msg_timestamp := clock browser 1;
         msg_files := Some (attach browser 0 (selectedFiles panel));
         msg_archiveResults := None |} in
    ([ SetInput EmptyString; SetSelectedFiles []; AppendMessage userMessage;
       SetIsTyping true; CallApi queryText ]
     ++ match aiSearchArchives browser queryText with
        | inr result => on_result browser result
        | inl error => on_error browser error
        end
     ++ [ SetIsTyping false ])%list.

(** The effect of one action on the panel, and of a run of actions. *)
Definition apply_action (panel : PanelState) (a : Action) : PanelState :=
  match a with
  | SetInput value =>
      {| messages := messages panel; input := value;
         selectedFiles := selectedFiles panel; isTyping := isTyping panel |}
  | SetSelectedFiles value =>
      {| messages := messages panel; input := input panel;
         selectedFiles := value; isTyping := isTyping panel |}
  | AppendMessage m =>
      {| messages := (messages panel ++ [m])%list; input := input panel;
         selectedFiles := selectedFiles panel; isTyping := isTyping panel |}
  | SetIsTyping value =>
      {| messages := messages panel; input := input panel;
         selectedFiles := selectedFiles panel; isTyping := value |}
  | CallApi _ | Toast _ _ => panel
  end.

Definition panel_after (panel : PanelState) (actions : list Action)
  : PanelState :=
  fold_left apply_action actions panel.

(** The search requests an action run sent. *)
Definition api_calls (actions : list Action) : list string :=
  flat_map (fun a => match a with CallApi q => [q] | _ => [] end) actions.

(** The messages an action run appended. *)
Definition appended (actions : list Action) : list ChatMessage :=
  flat_map (fun a => match a with AppendMessage m => [m] | _ => [] end) actions.

(** The toasts an action run raised. *)
Definition toasts (actions : list Action) : list (ToastKind * string) :=
  flat_map (fun a => match a with Toast k t => [(k, t)] | _ => [] end) actions.

(** *** The other handlers of [ChatPanel] *)

(** [handleFileSelect(e)]: [e.target.files] is a [FileList] or [null].  The
    update is functional, [setSelectedFiles((prev) => [...prev, ...files])],
    so the handler is given as what it makes of the panel, with the toast it
    raises. *)
Definition handleFileSelect (target_files : option (list File))
  (panel : PanelState) : PanelState * list (ToastKind * string) :=
  match target_files with
  | Some files =>
      ({| messages := messages panel; input := input panel;
          selectedFiles := (selectedFiles panel ++ files)%list;
          isTyping := isTyping panel |},
       [(toast_success,
         nat_toString (List.length files) ++ " file(s) attached")])
  | None => (panel, [])
  end.

(** [xs.filter((_, i) => i !== idx)], with [i] counted from [start]. *)
Fixpoint filter_index_from {A : Type} (start idx : nat) (xs : list A)
  : list A :=
  match xs with
  | [] => []
  | x :: rest =>
      if Nat.eqb start idx
      then filter_index_from (S start) idx rest
      else x :: filter_index_from (S start) idx rest
  end.

(** The [onClick] of the button beside the [idx]-th selected file:
    [setSelectedFiles(selectedFiles.filter((_, i) => i !== idx))]. *)
Definition removeSelectedFile (idx : nat) (panel : PanelState) : list Action :=
  [ SetSelectedFiles (filter_index_from 0 idx (selectedFiles panel)) ].

(** A keyboard event, as far as [handleKeyDown] reads it. *)
Record KeyboardEvent : Type := mkKey { key : string; shiftKey : bool }.

(** [handleKeyDown(e)]: whether [e.preventDefault()] was called, and the
    actions of the [handleSend] it started. *)
Definition handleKeyDown (browser : Browser) (e : KeyboardEvent)
  (panel : PanelState) : bool * list Action :=
  if String.eqb (key e) "Enter" && negb (shiftKey e)
  then (true, handleSend browser panel)
  else (false, []).

(** The [disabled] attribute of the send button:
    [(!input.trim() && selectedFiles.length === 0) || isTyping]. *)
Definition send_disabled (panel : PanelState) : bool :=
  (match trim (input panel) with EmptyString => true | _ => false end
   && Nat.eqb (List.length (selectedFiles panel)) 0)
  || isTyping panel.

(** The quick search buttons are rendered when [messages.length === 1]. *)
Definition quick_search_shown (panel : PanelState) : bool :=
  Nat.eqb (List.length (messages panel)) 1.

(** The [onSearch] callback given to [QuickSearchButtons]: the query is taken
    as it comes, the selected files are not touched, and the answer is
    handled by the same statements as in [handleSend]. *)
Definition onSearch (browser : Browser) (query : string) : list Action :=
  let userMessage :=
    {| msg_id := toString (clock browser 0);
       msg_role := user;
       msg_content := query;
       msg_timestamp := clock browser 1;
       msg_files := None;
       msg_archiveResults := None |} in
  ([ SetInput EmptyString; AppendMessage userMessage; SetIsTyping true;
     CallApi query ]
   ++ match aiSearchArchives browser query with
      | inr result => on_result browser result
      | inl error => on_error browser error
      end
   ++ [ SetIsTyping false ])%list.

(** A string is a full URL for [normalizeFileUri] when it starts with
    "http://" or "https://". *)
Definition is_full_url (url : string) : bool :=
  String.prefix "http://" url || String.prefix "https://" url.

End ChatPanel.

(* ===================================================================== *)
(** ** Part IV bis.  frontend/src/App.tsx                                 *)
(* ===================================================================== *)

(** [App] renders [ChatPanel] and loads the archives of the dashboard.  Its
    [normalizeFileUri] is, line for line, the one of ChatPanelV2.tsx. *)
Module App.
Import ChatPanel.

(** [ArchiveItem] as [App] builds it: [thumbnail] may be [undefined]. *)
Record ArchiveItem : Type := mkArchiveItem {
  id : string;
  title : string;
  type : string;
  date : string;
  tags : list string;
  description : string;
  fileUrl : string;
  thumbnail : option string;
  file_uris : list string
}.

(** [s.split('T')[0]]: what comes before the first ['T']. *)
Fixpoint before_T (s : string) : string :=
  match s with
  | EmptyString => EmptyString
  | String c rest =>
      if Ascii.eqb c "T" then EmptyString else String c (before_T rest)
  end.

(** The callback of [response.map] in [fetchArchives]. *)
Definition mapArchive (archive : Archive) : ArchiveItem :=
  let normalizedUris :=
    match archive_file_uris archive with
    | Some uris => normalize_all uris
    | None => []
    end in
  let fileUrl :=
    match normalizedUris with
    | first :: _ => first
    | [] => "https://via.placeholder.com/400"
    end in
  let primaryType :=
    match archive_media_types archive with
    | first :: _ => first
    | [] => "document"
    end in
  let date :=
    match archive_dates archive with
    | Some (first :: _) => before_T first
    | Some [] | None => before_T (archive_created_at archive)
    end in
  let description :=
    opt_or_else (archive_description archive) "Description not available." in
  {| id := archive_id archive;
     title := archive_title archive;
     type := primaryType;
     date := date;
     tags := match archive_tags archive with Some l => l | None => [] end;
     description := description;
     fileUrl := fileUrl;
     thumbnail := if String.eqb primaryType "image" then Some fileUrl else None;
     file_uris := normalizedUris |}.

(** What [fetchArchives] does to the world. *)
Inductive Action : Type :=
| SetArchives (value : list ArchiveItem)
| ToastError (text : string).

(** [fetchArchives], given what [getArchives()] settled with. *)
Definition fetchArchives (response : Thrown + list Archive) : list Action :=
  match response with
  | inr archives => [ SetArchives (map mapArchive archives) ]
  | inl _ => [ ToastError "Failed to load archives. Please refresh the page." ]
  end.

End App.

(* ===================================================================== *)
(** ** Part IV ter.  From the loop to the chat panel                      *)
(* ===================================================================== *)

(** What lies between the middleware and the chat panel, agent_v2.py and
    ai_search_v2.py, is not among the sources.  This part models it from the
    specification, around the loop of Part II. *)
Module Pipeline.
Import Middleware Session Backend ChatPanel.

(** Modelled from the spec: the outcome the Refinement Controller of
    agent_v2.py emits when the loop has ended (section 4.4, EVALUATING, and
    section 7).  "If GOOD_ENOUGH -> DONE: emit Results{items: results}.  If
    NEEDS_REFINEMENT and attemptCount >= maxAttempts -> EXHAUSTED: emit
    Message{text: <exhausted-retries message>}"; a failure of the Search
    Primitive is "not retried by the refinement loop" and propagates.  The
    loop hands back a result that needs refinement only when the budget is
    spent. *)
Definition session_outcome (self : SearchRefinementMiddleware) (c : Config)
  : PyExn + SearchOutcome :=
  match c with
  | ToolFailed _ e => inl e
  | AgentHolds _ result =>
      if _evaluate_results self (archives_of result)
      then inr (Results (archives_of result))
      else inr (Message EXHAUSTED_MESSAGE)
  | AgentCalls _ _ => inr (Message EXHAUSTED_MESSAGE)
  end.

(** Modelled from the spec: the search path of the Refinement Controller of
    agent_v2.py (section 4.4, SEARCHING): the Query Generator's first call
    gives the first query (and the id of the first tool call), a session is
    created for the turn, and the loop runs within the attempt budget. *)
Definition search_path (self : SearchRefinementMiddleware) (env : Env)
  (agent : Agent) (generate : string -> option string * string)
  (utterance : string) : M SearchOutcome :=
  fun _ =>
    let c :=
      session_after self env agent
        (fst (generate utterance)) (snd (generate utterance))
        (Z.to_nat (Z.max 1 (max_attempts self))) in
    (store_of c, session_outcome self c).

(** Modelled from the spec: the endpoint of ai_search_v2.py as the chat
    panel's [aiSearchArchives] meets it (section 7, propagation policy).  A
    [SearchResponse] is delivered as it is; a failure of the Search Primitive
    propagates "as a distinct error channel (HTTP 5xx equivalent), not
    disguised as a conversational message", so the request of the panel
    fails.  What the failed request throws is not fixed by the
    specification: [failure]. *)
Definition serve (backend : string -> M SearchResponse)
  (failure : PyExn -> Thrown) (queryText : string)
  : Thrown + SearchResponse :=
  match snd (backend queryText {| agent_state := fresh_state; tool_log := [] |})
  with
  | inl e => inl (failure e)
  | inr response => inr response
  end.

End Pipeline.

(* ===================================================================== *)
(** ** Concrete runs                                                      *)
(* ===================================================================== *)

Module Scenarios.
Import Middleware Session Backend ChatPanel.

(** An archive with the given similarity score. *)
Definition scored (name : string) (score : float) : Archive :=
  {| archive_id := name;
     archive_title := name;
     archive_description := None;
     archive_media_types := ["image"];
     archive_dates := None;
     archive_created_at := "2025-01-01";
     archive_tags := None;
     archive_file_uris := None;
     archive_storage_paths := None;
     similarity := Some score |}.

(** The middleware of agent_v2.py: [max_attempts=3],
    [min_similarity_threshold=0.4]. *)
Definition default_middleware : SearchRefinementMiddleware := __init__ None None.

(** A middleware configured with no attempt at all. *)
Definition zero_budget : SearchRefinementMiddleware := __init__ (Some 0) None.

(** A tool that never finds anything. *)
Definition finds_nothing : Env :=
  fun _ _ => inr (VTuple "No archives found." []).

(** A tool that always finds one weak match. *)
Definition finds_weak : Env :=
  fun _ _ => inr (VTuple "Found 1 archive(s)." [scored "a" 0.3%float]).

(** A tool that finds nothing, then a 0.25 match, then a 0.3 match. *)
Definition weak_results : Env :=
  fun k _ =>
    match k with
    | O => inr (VTuple "No archives found." [])
    | S O => inr (VTuple "Found 1 archive(s)." [scored "kite" 0.25%float])
    | _ => inr (VTuple "Found 2 archive(s)."
                       [scored "songket" 0.3%float; scored "kite" 0.2%float])
    end.

(** A tool that finds a 0.25 match, then a 0.55 match. *)
Definition improving_results : Env :=
  fun k _ =>
    match k with
    | O => inr (VTuple "Found 1 archive(s)." [scored "kite" 0.25%float])
    | _ => inr (VTuple "Found 1 archive(s)." [scored "batik" 0.55%float])
    end.

(** A tool that times out. *)
Definition search_timeout : PyExn :=
  {| exn_class := "TimeoutError"; exn_message := "search timed out" |}.
Definition times_out : Env := fun _ _ => inl search_timeout.

(** An agent that sends the same query again. *)
Definition repeating_agent : Agent := fun _ _ => (Some "something", "call_n").

(** An agent whose next query is longer than every query tried so far. *)
Definition query_length (q : option string) : nat :=
  match q with Some text => String.length text | None => O end.

Definition longest (qs : list (option string)) : nat :=
  fold_right (fun q n => Nat.max (query_length q) n) O qs.

Fixpoint stars (n : nat) : string :=
  match n with
  | O => EmptyString
  | S n' => String "*" (stars n')
  end.

Definition lengthening_agent : Agent :=
  fun st _ => (Some (stars (S (longest (get_previous_queries st)))), "call_n").

(** A request for another tool. *)
Definition other_request : ToolRequest :=
  {| tool_call := {| tc_name := Some "get_archive_details";
                     tc_args_query := None;
                     tc_id := "call_7" |} |}.

(** A store in the middle of a session. *)
Definition busy_store : Store :=
  {| agent_state :=
       {| search_attempt_count := Some 2;
          original_user_query := Some "batik";
          previous_queries_tried := Some [Some "batik"; Some "batik textiles"];
          best_results := None |};
     tool_log := [search_request (Some "batik") "call_1";
                  search_request (Some "batik textiles") "call_2"] |}.

(** A browser whose search request fails, and one whose request is answered
    with the exhaustion message. *)
Definition failing_browser : Browser :=
  {| clock := fun k => 1700000000000 + Z.of_nat k;
     createObjectURL := fun _ file => "blob:" ++ file_name file;
     aiSearchArchives := fun _ => inl (ThrownError "Request timed out") |}.

(** The first call of a session, and the store it finds. *)
Definition first_request : ToolRequest := search_request (Some "batik") "call_1".
Definition first_store : Store :=
  {| agent_state := fresh_state; tool_log := [] |}.

Definition blank_panel : PanelState :=
  {| messages := []; input := "   "; selectedFiles := []; isTyping := false |}.

Definition batik_panel : PanelState :=
  {| messages := []; input := " batik "; selectedFiles := [];
     isTyping := false |}.

End Scenarios.

(* ===================================================================== *)
(** ** More concrete runs                                                 *)
(* ===================================================================== *)

Module MoreScenarios.
Import Middleware Session Backend ChatPanel Scenarios.

(** A tool that finds a good match at once. *)
Definition good_result : ToolValue :=
  VTuple "Found 1 archive(s)." [scored "batik" 0.55%float].
Definition finds_good : Env := fun _ _ => inr good_result.

(** A store whose counter has reached the budget of 3, as a finished session
    leaves it. *)
Definition spent_store : Store :=
  {| agent_state :=
       {| search_attempt_count := Some 3;
          original_user_query := Some "something";
          previous_queries_tried :=
            Some [Some "something"; Some "heritage"; Some "crafts"];
          best_results := None |};
     tool_log := [] |}.

(** An archive without the key "similarity". *)
Definition unscored : Archive :=
  {| archive_id := "a"; archive_title := "a"; archive_description := None;
     archive_media_types := []; archive_dates := None;
     archive_created_at := "2025-03-04T10:00:00"; archive_tags := None;
     archive_file_uris := None; archive_storage_paths := None;
     similarity := None |}.

(** Archives with an empty [file_uris] and different [storage_paths]. *)
Definition no_files (paths : option (list JsValue)) : Archive :=
  {| archive_id := "b"; archive_title := "b"; archive_description := None;
     archive_media_types := ["video"]; archive_dates := None;
     archive_created_at := "2025-03-04T10:00:00"; archive_tags := None;
     archive_file_uris := Some []; archive_storage_paths := paths;
     similarity := None |}.

(** An archive with one full URL and one relative path. *)
Definition with_files : Archive :=
  {| archive_id := "c"; archive_title := "Songket"; archive_description := None;
     archive_media_types := ["image"];
     archive_dates := Some ["1950-01-01T00:00:00"];
     archive_created_at := "2025-03-04T10:00:00";
     archive_tags := Some ["textile"];
     archive_file_uris :=
       Some [JsString "uploads/c.png";
             JsObject (JsString "https://cdn.example/c.png") JsUndefined];
     archive_storage_paths := None;
     similarity := Some 0.5%float |}.

(** Browsers whose search request is answered. *)
Definition browser_answering (result : SearchResponse) : Browser :=
  {| clock := fun k => 1700000000000 + Z.of_nat k;
     createObjectURL := fun _ file => "blob:" ++ file_name file;
     aiSearchArchives := fun _ => inr result |}.

Definition greeting_response : SearchResponse :=
  {| response_type := "message"; archives := []; total := 0;
     query := "batik"; message := Some GREETING_MESSAGE |}.

Definition songket_response : SearchResponse :=
  {| response_type := "results"; archives := [with_files]; total := 1;
     query := "batik"; message := None |}.

Definition empty_response : SearchResponse :=
  {| response_type := "results"; archives := []; total := 0;
     query := "batik"; message := None |}.

(** A panel with a blank input and one selected file. *)
Definition files_panel : PanelState :=
  {| messages := []; input := " ";
     selectedFiles := [{| file_name := "kite.png"; file_type := "image/png" |}];
     isTyping := false |}.

(** A panel whose input has no surrounding white space. *)
Definition typed_panel : PanelState :=
  {| messages := []; input := "batik"; selectedFiles := [];
     isTyping := false |}.

End MoreScenarios.

(* ===================================================================== *)
(** ** Concrete turns                                                     *)
(* ===================================================================== *)

Module Turns.
Import Middleware Session Backend ChatPanel Pipeline Scenarios MoreScenarios.

(** A classifier that takes every utterance for a search, and a generator
    that searches for the utterance as it is. *)
Definition always_search : string -> Intent := fun _ => HERITAGE_SEARCH.
Definition verbatim : string -> option string * string :=
  fun utterance => (Some utterance, "call_1").


(** The failed request throws an [Error] with the message of the exception. *)
Definition as_error : PyExn -> Thrown :=
  fun e => ThrownError (exn_message e).

(** The browser of a panel served by the pipeline over a tool that times
    out. *)
Definition degraded_browser : Browser :=
  {| clock := fun k => 1700000000000 + Z.of_nat k;
     createObjectURL := fun _ file => "blob:" ++ file_name file;
     aiSearchArchives :=
       serve (search always_search
                (search_path default_middleware times_out lengthening_agent
                   verbatim))
             as_error |}.

End Turns.

(* ===================================================================== *)
(** ** Part V.  Properties of the middleware                              *)
(* ===================================================================== *)

Import Middleware Session Backend ChatPanel Scenarios.
Import MoreScenarios.
Import Pipeline Turns.

Section MiddlewareFacts.

Variable self : SearchRefinementMiddleware.

Lemma wrap_tool_call_other (request : ToolRequest) (handler : Handler)
  (s : Store) :
  is_search_call request = false ->
  wrap_tool_call self request handler s =
  ({| agent_state := agent_state s;
      tool_log := (tool_log s ++ [request])%list |},
   match handler request with
   | inl e => inl e
   | inr result => inr (ToolResult result)
   end).
Proof.
  intros Hname. unfold wrap_tool_call. rewrite Hname. cbn.
  unfold bind, call, ret. destruct (handler request); reflexivity.
Qed.

Lemma wrap_tool_call_raises (request : ToolRequest) (handler : Handler)
  (s : Store) (e : PyExn) :
  is_search_call request = true ->
  handler request = inl e ->
  wrap_tool_call self request handler s =
  ({| agent_state := state_before_search request (agent_state s);
      tool_log := (tool_log s ++ [request])%list |}, inl e).
Proof.
  intros Hname He. unfold wrap_tool_call, state_before_search.
  rewrite Hname. cbn. unfold bind, read_state, call, ret, write_state.
  destruct (get_attempt_count (agent_state s) =? 0)%Z; cbn;
    rewrite He; reflexivity.
Qed.

Lemma wrap_tool_call_returns (request : ToolRequest) (handler : Handler)
  (s : Store) (result : ToolValue) :
  is_search_call request = true ->
  handler request = inr result ->
  wrap_tool_call self request handler s =
  ({| agent_state := state_after_search request (agent_state s);
      tool_log := (tool_log s ++ [request])%list |},
   inr (if _evaluate_results self (archives_of result)
           || (get_attempt_count (agent_state s) + 1 >=? max_attempts self)%Z
        then ToolResult result
        else RefinementRequest
               {| content :=
                    refinement_content
                      (List.length (archives_of result))
                      (get_previous_queries (agent_state s)
                         ++ [tc_args_query (tool_call request)])%list
                      (if (get_attempt_count (agent_state s) =? 0)%Z
                       then tc_args_query (tool_call request)
                       else original_user_query (agent_state s));
                  tool_call_id := tc_id (tool_call request) |})).
Proof.
  intros Hname Hr. unfold wrap_tool_call, state_after_search, state_before_search.
  rewrite Hname. cbn. unfold bind, read_state, call, ret, write_state.
  destruct (get_attempt_count (agent_state s) =? 0)%Z eqn:H0; cbn;
    rewrite Hr; cbn;
    destruct (_evaluate_results self (archives_of result)
              || (get_attempt_count (agent_state s) + 1 >=? max_attempts self)%Z);
    reflexivity.
Qed.

End MiddlewareFacts.

(** *** The relevance evaluator *)

Lemma existsb_threshold (t : float) (archives : list Archive) :
  existsb (fun archive => (t <=? get_similarity archive)%float)
          archives = true <->
  exists archive, In archive archives /\
                  (t <=? get_similarity archive)%float = true.
Proof.
  induction archives as [| a rest IH]; cbn.
  - split; [discriminate | intros (x & [] & _)].
  - rewrite orb_true_iff, IH. split.
    + intros [Ha | (x & Hin & Hx)]; [exists a | exists x]; auto.
    + intros (x & [<- | Hin] & Hx); [left | right; exists x]; auto.
Qed.

(** C2.  The relevance evaluator answers GOOD_ENOUGH ([true]) if and only if
    the result sequence is not empty and at least one of its items has a
    similarity greater than or equal to the evaluation threshold, where an
    item without the key "similarity" is scored 0; in every other case it
    answers NEEDS_REFINEMENT ([false]).  For a sequence of result items, each
    with its similarity, that is: if and only if the sequence is not empty and
    the [similarity] field of some item is at least the threshold.  The
    threshold [__init__] sets by default is 0.4. *)
Theorem evaluate_results_good_enough_iff
  (self : SearchRefinementMiddleware) (archives : list Archive) :
  let good_match :=
    archives <> [] /\
    exists archive,
      In archive archives /\
      match similarity archive with
      | Some score => (min_similarity_threshold self <=? score)%float = true
      | None => (min_similarity_threshold self <=? 0)%float = true
      end in
  (_evaluate_results self archives = true <-> good_match) /\
  (_evaluate_results self archives = false <-> ~ good_match) /\
  (Forall (fun archive => similarity archive <> None) archives ->
   (_evaluate_results self archives = true <->
    archives <> [] /\
    exists (archive : Archive) (score : float),
      In archive archives /\
      similarity archive = Some score /\
      (min_similarity_threshold self <=? score)%float = true)) /\
  min_similarity_threshold (__init__ None None) = 0.4%float.
Proof.
  cbv zeta.
  assert (Hiff : _evaluate_results self archives = true <->
                 archives <> [] /\
                 exists archive,
                   In archive archives /\
                   match similarity archive with
                   | Some score =>
                       (min_similarity_threshold self <=? score)%float = true
                   | None =>
                       (min_similarity_threshold self <=? 0)%float = true
                   end).
  { assert (Hfield : forall archive,
               (min_similarity_threshold self <=? get_similarity archive)%float
               = true <->
               match similarity archive with
               | Some score =>
                   (min_similarity_threshold self <=? score)%float = true
               | None => (min_similarity_threshold self <=? 0)%float = true
               end).
    { intros archive. unfold get_similarity.
      destruct (similarity archive); reflexivity. }
    destruct archives as [| a rest].
    - cbn. split; [discriminate | intros [H _]; now elim H].
    - unfold _evaluate_results. rewrite existsb_threshold. split.
      + intros (x & Hin & Hx). split; [discriminate |].
        exists x. split; [exact Hin | now apply Hfield].
      + intros (_ & x & Hin & Hx). exists x.
        split; [exact Hin | now apply Hfield]. }
  split; [exact Hiff | split; [| split; [| reflexivity]]].
  - rewrite <- Hiff.
    destruct (_evaluate_results self archives); split; intro H;
      try reflexivity; try discriminate; try (now elim H).
  - intros Hall. rewrite Hiff. rewrite Forall_forall in Hall. split.
    + intros (Hne & x & Hin & Hx). split; [exact Hne |].
      destruct (similarity x) as [score |] eqn:Hs.
      * exists x, score. repeat split; assumption.
      * now elim (Hall x Hin).
    + intros (Hne & x & score & Hin & Hs & Hx). split; [exact Hne |].
      exists x. split; [exact Hin |]. now rewrite Hs.
Qed.

Lemma evaluate_results_good_enough_iff_witness :
  Forall (fun archive => similarity archive <> None)
         [scored "kite" 0.2%float; scored "batik" 0.55%float] /\
  (_evaluate_results default_middleware
     [scored "kite" 0.2%float; scored "batik" 0.55%float] = true <->
   [scored "kite" 0.2%float; scored "batik" 0.55%float] <> [] /\
   exists (archive : Archive) (score : float),
     In archive [scored "kite" 0.2%float; scored "batik" 0.55%float] /\
     similarity archive = Some score /\
     (min_similarity_threshold default_middleware <=? score)%float = true).
Proof.
  assert (Hall : Forall (fun archive => similarity archive <> None)
                        [scored "kite" 0.2%float; scored "batik" 0.55%float]).
  { repeat constructor; discriminate. }
  split; [exact Hall |].
  exact (proj1 (proj2 (proj2
           (evaluate_results_good_enough_iff default_middleware
              [scored "kite" 0.2%float; scored "batik" 0.55%float]))) Hall).
Defined.

(** *** Requests for other tools *)

Lemma other_tool_is_not_search (request : ToolRequest) :
  tc_name (tool_call request)
    <> Some "search_archives_db" ->
  is_search_call request = false.
Proof.
  unfold is_search_call.
  destruct (tc_name (tool_call request)) as [n |];
    [| reflexivity].
  intros Hne. apply String.eqb_neq. congruence.
Qed.

(** C9.  For a request whose tool name is not "search_archives_db",
    [wrap_tool_call] returns exactly what the original handler returns (or
    raises what it raises) after handing it the request once, and the agent
    state, hence each of [search_attempt_count], [original_user_query],
    [previous_queries_tried] and [best_results], is left as it was. *)
Theorem wrap_tool_call_other_tool_frame
  (self : SearchRefinementMiddleware)
  (request : ToolRequest) (handler : Handler)
  (s : Store) :
  tc_name (tool_call request)
    <> Some "search_archives_db" ->
  let (s', outcome) := wrap_tool_call self request handler s in
  outcome = match handler request with
            | inl e => inl e
            | inr result => inr (ToolResult result)
            end /\
  agent_state s' = agent_state s /\
  tool_log s' = (tool_log s ++ [request])%list.
Proof.
  intros Hname.
  rewrite (wrap_tool_call_other self request handler s
             (other_tool_is_not_search request Hname)).
  repeat split.
Qed.

Lemma wrap_tool_call_other_tool_frame_witness :
  tc_name (tool_call other_request) <> Some "search_archives_db" /\
  let (s', outcome) :=
    wrap_tool_call default_middleware other_request
      (fun _ => inr (VOther "details")) busy_store in
  outcome = inr (ToolResult (VOther "details")) /\
  agent_state s' = agent_state busy_store /\
  tool_log s' = (tool_log busy_store ++ [other_request])%list.
Proof.
  split; [discriminate |].
  apply (wrap_tool_call_other_tool_frame default_middleware other_request
           (fun _ => inr (VOther "details")) busy_store).
  discriminate.
Defined.

(* ===================================================================== *)
(** ** Part VI.  Properties of the agent loop                             *)
(* ===================================================================== *)

Section SessionFacts.

Variable self : SearchRefinementMiddleware.
Variable env : Env.
Variable agent : Agent.

Lemma attempt_count_before (request : ToolRequest) (st : SearchRefinementState) :
  get_attempt_count (state_before_search request st) = get_attempt_count st.
Proof.
  unfold state_before_search.
  destruct (get_attempt_count st =? 0)%Z; reflexivity.
Qed.

Lemma attempt_count_after (request : ToolRequest) (st : SearchRefinementState) :
  get_attempt_count (state_after_search request st) = get_attempt_count st + 1.
Proof. reflexivity. Qed.

Lemma previous_queries_before (request : ToolRequest)
  (st : SearchRefinementState) :
  get_previous_queries (state_before_search request st)
  = get_previous_queries st.
Proof.
  unfold state_before_search.
  destruct (get_attempt_count st =? 0)%Z; reflexivity.
Qed.

Lemma previous_queries_after (request : ToolRequest)
  (st : SearchRefinementState) :
  get_previous_queries (state_after_search request st)
  = (get_previous_queries st ++ [tc_args_query (tool_call request)])%list.
Proof. reflexivity. Qed.

Lemma best_results_before (request : ToolRequest) (st : SearchRefinementState) :
  best_results (state_before_search request st) = best_results st.
Proof.
  unfold state_before_search.
  destruct (get_attempt_count st =? 0)%Z; reflexivity.
Qed.

Lemma best_results_after (request : ToolRequest) (st : SearchRefinementState) :
  best_results (state_after_search request st) = best_results st.
Proof.
  unfold state_after_search. cbn. apply best_results_before.
Qed.

Lemma session_step_search (s : Store) (request : ToolRequest) :
  is_search_call request = true ->
  turn_spec self env agent s request
    (session_step self env agent (AgentCalls s request)).
Proof.
  intros Hname. unfold session_step.
  destruct (env (List.length (tool_log s)) request) as [e | result] eqn:Henv.
  - rewrite (wrap_tool_call_raises self request _ s e Hname Henv).
    now constructor.
  - rewrite (wrap_tool_call_returns self request _ s result Hname Henv).
    destruct (_evaluate_results self (archives_of result)) eqn:Hgood; cbn.
    + apply turn_done; auto.
    + destruct (get_attempt_count (agent_state s) + 1 >=? max_attempts self)%Z
        eqn:Hmax.
      * apply turn_done; [assumption | right; lia].
      * match goal with
        | |- context [agent ?st ?m] =>
            pose proof (turn_refine self env agent s request result m Henv Hgood)
              as Hturn;
            destruct (agent st m) as [q i] eqn:Hagent
        end.
        cbn in Hturn. apply Hturn. lia.
Qed.

Lemma session_step_terminal (c : Config) :
  is_terminal c = true -> session_step self env agent c = c.
Proof. destruct c; [discriminate | reflexivity | reflexivity]. Qed.

Lemma iter_terminal (c : Config) (n : nat) :
  is_terminal c = true -> Nat.iter n (session_step self env agent) c = c.
Proof.
  intros Hc. induction n as [| n IH]; [reflexivity |].
  rewrite Nat.iter_succ, IH. now apply session_step_terminal.
Qed.

(** **** Requests and failures *)

Lemma session_requests_are_searches (query : option string) (id : string)
  (n : nat) (s : Store) (request : ToolRequest) :
  session_after self env agent query id n = AgentCalls s request ->
  is_search_call request = true.
Proof.
  revert s request. induction n as [| n IH]; intros s request.
  - unfold session_after, session_start. cbn. intros [= _ <-]. reflexivity.
  - unfold session_after in *. rewrite Nat.iter_succ.
    destruct (Nat.iter n (session_step self env agent)
                (session_start query id)) as [s0 r0 | s0 v0 | s0 e0];
      [| discriminate | discriminate].
    specialize (IH s0 r0 eq_refl).
    destruct (session_step_search s0 r0 IH); try discriminate.
    intros [= _ <-]. reflexivity.
Qed.

Lemma session_after_add (query : option string) (id : string) (n k : nat) :
  session_after self env agent query id (k + n)
  = Nat.iter k (session_step self env agent)
      (session_after self env agent query id n).
Proof. unfold session_after. apply Nat.iter_add. Qed.

Lemma failure_ends_session (query : option string) (id : string) (n : nat)
  (s : Store) (request : ToolRequest) (e : PyExn) :
  session_after self env agent query id n = AgentCalls s request ->
  env (List.length (tool_log s)) request = inl e ->
  forall m : nat, (n < m)%nat ->
    session_after self env agent query id m
    = ToolFailed {| agent_state := state_before_search request (agent_state s);
                    tool_log := (tool_log s ++ [request])%list |} e.
Proof.
  intros Hn He m Hlt.
  replace m with ((m - S n) + S n)%nat by lia.
  rewrite session_after_add.
  assert (Hfail : session_after self env agent query id (S n)
                  = ToolFailed
                      {| agent_state :=
                           state_before_search request (agent_state s);
                         tool_log := (tool_log s ++ [request])%list |} e).
  { unfold session_after in *. rewrite Nat.iter_succ, Hn.
    pose proof (session_requests_are_searches query id n s request Hn) as Hname.
    destruct (session_step_search s request Hname); try congruence. }
  rewrite Hfail. now apply iter_terminal.
Qed.

(** **** The attempt bound *)

Hypothesis budget_positive : 1 <= max_attempts self.

Lemma within_budget_start (query : option string) (id : string) :
  within_budget self (session_start query id).
Proof.
  unfold within_budget, session_start; cbn.
  repeat split; [constructor | lia].
Qed.

Lemma within_budget_step (c : Config) :
  within_budget self c -> within_budget self (session_step self env agent c).
Proof.
  destruct c as [s request | s result | s e]; [| trivial | trivial].
  intros (Hlog & Hname & Hcount & Hlt). cbn in Hlog.
  assert (Hlog' : Forall (fun r => is_search_call r = true)
                         (tool_log s ++ [request])).
  { apply Forall_app; split; [assumption | now repeat constructor]. }
  destruct (session_step_search s request Hname);
    (split; [exact Hlog' |]); cbn;
    rewrite ?attempt_count_before, ?attempt_count_after, ?length_app; cbn;
    repeat split; lia.
Qed.

Lemma within_budget_after (query : option string) (id : string) (n : nat) :
  within_budget self (session_after self env agent query id n).
Proof.
  induction n as [| n IH]; [apply within_budget_start |].
  unfold session_after. rewrite Nat.iter_succ. now apply within_budget_step.
Qed.

(** **** Query novelty *)

Lemma NoDup_snoc {A : Type} (l : list A) (x : A) :
  NoDup l -> ~ In x l -> NoDup (l ++ [x]).
Proof.
  intros Hl Hx. apply NoDup_rev in Hl. rewrite <- (rev_involutive (l ++ [x])).
  apply NoDup_rev. rewrite rev_app_distr. cbn. constructor; [| assumption].
  now rewrite <- in_rev.
Qed.

Hypothesis agent_complies : generates_new_queries agent.

Lemma novel_start (query : option string) (id : string) :
  novel (session_start query id).
Proof.
  unfold novel, session_start, queriesTried; cbn.
  repeat split; [constructor | tauto].
Qed.

Lemma novel_step (c : Config) :
  novel c -> novel (session_step self env agent c).
Proof.
  destruct c as [s request | s result | s e]; [| trivial | trivial].
  intros (Hnodup & Hname & Hnew). unfold queriesTried in Hnodup, Hnew.
  cbn in Hnodup, Hnew. unfold novel, queriesTried.
  destruct (session_step_search s request Hname);
    cbn [store_of agent_state tool_call tc_args_query search_request];
    rewrite ?previous_queries_before, ?previous_queries_after.
  - split; [assumption | exact I].
  - split; [now apply NoDup_snoc | exact I].
  - split; [now apply NoDup_snoc |].
    split; [reflexivity |].
    rewrite <- previous_queries_after. apply agent_complies.
Qed.

Lemma novel_after (query : option string) (id : string) (n : nat) :
  novel (session_after self env agent query id n).
Proof.
  induction n as [| n IH]; [apply novel_start |].
  unfold session_after. rewrite Nat.iter_succ. now apply novel_step.
Qed.

End SessionFacts.

(** With the budget of agent_v2.py, [max_attempts=3], no session issues a
    fourth search. *)
Corollary default_budget_never_fourth_search (env : Env) (agent : Agent)
  (query : option string) (id : string) (n : nat) :
  (List.length
     (searches_executed
        (session_after default_middleware env agent query id n)) <= 3)%nat.
Proof.
  assert (Hpos : 1 <= max_attempts default_middleware) by (cbn; lia).
  pose proof (within_budget_after default_middleware env agent Hpos query id n)
    as [_ Hinv].
  unfold searches_executed.
  pose proof (filter_length_le is_search_call
                (tool_log (store_of (session_after default_middleware env agent
                                                   query id n))))
    as Hfilter.
  change (max_attempts default_middleware) with 3 in Hinv.
  destruct (session_after default_middleware env agent query id n);
    cbn in *; lia.
Qed.

(** C1 (as amended).  For a middleware configured with at least one attempt,
    a session that starts on a fresh state keeps [attemptCount] at or below
    [max_attempts] after every step of the loop and executes at most
    [max_attempts] search invocations; with the default budget of 3 a fourth
    search is never issued. *)
Theorem attempt_bound_holds_from_one_attempt
  (self : SearchRefinementMiddleware) (env : Env) (agent : Agent)
  (query : option string) (id : string) :
  1 <= max_attempts self ->
  attempt_bound self env agent query id.
Proof.
  intros Hpos n. cbv zeta.
  pose proof (within_budget_after self env agent Hpos query id n) as [_ Hinv].
  unfold attemptCount, searches_executed.
  pose proof (filter_length_le is_search_call
                (tool_log (store_of (session_after self env agent query id n))))
    as Hfilter.
  destruct (session_after self env agent query id n); cbn in *; lia.
Qed.

Lemma attempt_bound_holds_from_one_attempt_witness :
  1 <= max_attempts default_middleware /\
  attempt_bound default_middleware weak_results lengthening_agent
                (Some "something") "call_1".
Proof.
  split; [cbn; lia |].
  apply (attempt_bound_holds_from_one_attempt default_middleware weak_results
           lengthening_agent (Some "something") "call_1").
  cbn; lia.
Defined.

(** C1 (as stated) fails: a middleware built with [max_attempts=0] still
    executes the first search, after which the counter is 1. *)
Lemma attempt_bound_fails_without_budget :
  ~ attempt_bound zero_budget finds_nothing repeating_agent
                  (Some "something") "call_1".
Proof.
  intros H. specialize (H 1%nat). cbv zeta in H. destruct H as [H _].
  vm_compute in H. apply H. reflexivity.
Qed.

Lemma longest_bounds (qs : list (option string)) (q : option string) :
  In q qs -> (query_length q <= longest qs)%nat.
Proof.
  induction qs as [| q' rest IH]; [intros [] |].
  change (longest (q' :: rest))
    with (Nat.max (query_length q') (longest rest)).
  intros [-> | Hin]; [| specialize (IH Hin)]; lia.
Qed.

Lemma stars_length (n : nat) : String.length (stars n) = n.
Proof. induction n as [| n IH]; cbn; [reflexivity | now rewrite IH]. Qed.

Lemma lengthening_agent_complies : generates_new_queries lengthening_agent.
Proof.
  intros st m Hin. apply longest_bounds in Hin.
  unfold lengthening_agent in Hin. cbn [fst query_length] in Hin.
  rewrite stars_length in Hin. lia.
Qed.

(** C6 (as amended).  In every session whose query generator never returns a
    query that was already tried, the entries of [queriesTried] are pairwise
    distinct after every step; in particular no two consecutive entries are
    identical. *)
Theorem queries_distinct_when_generator_complies
  (self : SearchRefinementMiddleware) (env : Env) (agent : Agent)
  (query : option string) (id : string) :
  generates_new_queries agent ->
  query_novelty self env agent query id.
Proof.
  intros Hagent n.
  exact (proj1 (novel_after self env agent Hagent query id n)).
Qed.

Lemma queries_distinct_when_generator_complies_witness :
  generates_new_queries lengthening_agent /\
  query_novelty default_middleware weak_results lengthening_agent
                (Some "something") "call_1".
Proof.
  split; [exact lengthening_agent_complies |].
  apply (queries_distinct_when_generator_complies default_middleware
           weak_results lengthening_agent (Some "something") "call_1").
  exact lengthening_agent_complies.
Defined.

(** C6 (as stated) fails: the middleware records whatever query the agent
    sends; when the agent sends its query again, [queriesTried] holds it
    twice. *)
Lemma query_novelty_fails_for_repeated_query :
  ~ query_novelty default_middleware finds_nothing repeating_agent
                  (Some "something") "call_1".
Proof.
  intros H. specialize (H 2%nat). vm_compute in H.
  inversion H as [| x l Hnotin _]; subst. apply Hnotin. now left.
Qed.

(* ===================================================================== *)
(** ** Part VII.  Properties of the chat panel                            *)
(* ===================================================================== *)

(** The message [handleSend] shows for the user's own input. *)
Lemma handleSend_sends (browser : Browser) (panel : PanelState) :
  trim (input panel) <> EmptyString \/ selectedFiles panel <> [] ->
  exists userMessage : ChatMessage,
    msg_role userMessage = user /\
    handleSend browser panel =
    ([ SetInput EmptyString; SetSelectedFiles []; AppendMessage userMessage;
       SetIsTyping true; CallApi (trim (input panel)) ]
     ++ match aiSearchArchives browser (trim (input panel)) with
        | inr result => on_result browser result
        | inl error => on_error browser error
        end
     ++ [ SetIsTyping false ])%list.
Proof.
  intros Hsome. unfold handleSend.
  destruct (trim (input panel)) as [| c rest] eqn:Htrim.
  - destruct Hsome as [Hq | Hfiles]; [now elim Hq |].
    destruct (selectedFiles panel) as [| f fs]; [now elim Hfiles |].
    cbn [List.length Nat.eqb andb]. eexists; split; [| reflexivity]. reflexivity.
  - cbn [andb]. eexists; split; [| reflexivity]. reflexivity.
Qed.

Lemma toasts_app (xs ys : list Action) :
  toasts (xs ++ ys) = (toasts xs ++ toasts ys)%list.
Proof. apply flat_map_app. Qed.

Lemma appended_app (xs ys : list Action) :
  appended (xs ++ ys) = (appended xs ++ appended ys)%list.
Proof. apply flat_map_app. Qed.

Lemma api_calls_app (xs ys : list Action) :
  api_calls (xs ++ ys) = (api_calls xs ++ api_calls ys)%list.
Proof. apply flat_map_app. Qed.

(** No answer of the search service raises the error toast. *)
Lemma on_result_toasts (browser : Browser) (result : SearchResponse) :
  ~ In toast_error (map fst (toasts (on_result browser result))).
Proof.
  unfold on_result.
  destruct (String.eqb (response_type result) "message"); cbn; [tauto |].
  destruct (map toArchiveItem (archives result)); cbn;
    intros [H | []]; discriminate H.
Qed.

(** C10.  When the input trims to the empty string and no file is selected,
    [handleSend] returns at once: it performs no action at all, so the
    message list, the input field, the selected files and the typing
    indicator are as before, and no search request is sent. *)
Theorem handleSend_ignores_blank_input (browser : Browser)
  (panel : PanelState) :
  trim (input panel) = EmptyString ->
  selectedFiles panel = [] ->
  handleSend browser panel = [] /\
  panel_after panel (handleSend browser panel) = panel /\
  api_calls (handleSend browser panel) = [].
Proof.
  intros Htrim Hfiles.
  assert (Hnone : handleSend browser panel = []).
  { unfold handleSend. rewrite Htrim, Hfiles. reflexivity. }
  rewrite Hnone. repeat split.
Qed.

Lemma handleSend_ignores_blank_input_witness :
  trim (input blank_panel) = EmptyString /\
  selectedFiles blank_panel = [] /\
  handleSend failing_browser blank_panel = [] /\
  panel_after blank_panel (handleSend failing_browser blank_panel)
  = blank_panel /\
  api_calls (handleSend failing_browser blank_panel) = [].
Proof.
  split; [reflexivity |]. split; [reflexivity |].
  apply (handleSend_ignores_blank_input failing_browser blank_panel);
    reflexivity.
Defined.

Lemma failure_text_is_not_exhaustion (reason : string) :
  "Sorry, search failed: " ++ reason ++ ". Please try again."
  <> EXHAUSTED_MESSAGE.
Proof. unfold EXHAUSTED_MESSAGE. cbn. discriminate. Qed.

(* ===================================================================== *)
(** ** Part VIII.  Properties of the response contract                    *)
(* ===================================================================== *)

Lemma format_response_exclusive (utterance : string) (outcome : SearchOutcome) :
  response_exclusive (format_response utterance outcome).
Proof.
  unfold response_exclusive.
  destruct outcome as [[| item items] | text]; cbn;
    repeat split; intros; try discriminate; try congruence;
    try (exfalso; congruence).
Qed.

(** C4.  Every response the search interface returns to its caller is
    exclusive: its [response_type] is "results" if and only if [archives] is
    not empty, if and only if [message] is null; an empty result set comes out
    as a message response; and [total] is the number of archives. *)
Theorem search_response_is_exclusive
  (classify : string -> Intent) (search_path : string -> M SearchOutcome)
  (utterance : string) (s : Store) :
  match search classify search_path utterance s with
  | (_, inr response) =>
      response_exclusive response /\
      total response = Z.of_nat (List.length (archives response)) /\
      (response_type response = "results" \/ response_type response = "message")
  | (_, inl _) => True
  end.
Proof.
  unfold search, bind.
  destruct (refinement_controller classify search_path utterance s)
    as [s' [e | outcome]]; [exact I |].
  cbn. split; [apply format_response_exclusive |].
  destruct outcome as [[| item items] | text]; cbn; auto.
Qed.

Lemma canned_response_shown (text : string) (fallback : string) :
  text <> EmptyString -> opt_or_else (Some text) fallback = text.
Proof. destruct text; [intros H; now elim H | reflexivity]. Qed.

(** C5.  For an utterance classified UNCLEAR, UNRELATED or GREETING, the
    search interface answers without touching the store, so that no request
    reaches the search tool, and its answer is the message response whose
    text is, character for character, the fixed response of that intent; the
    chat panel shows that text as it is, in one assistant message without
    results. *)
Theorem non_search_intent_gets_canned_message
  (classify : string -> Intent) (search_path : string -> M SearchOutcome)
  (utterance : string) (s : Store) (browser : Browser) :
  classify utterance <> HERITAGE_SEARCH ->
  exists text : string,
    canned_response (classify utterance) = Some text /\
    search classify search_path utterance s
    = (s, inr {| response_type := "message";
                 archives := [];
                 total := 0;
                 query := utterance;
                 message := Some text |}) /\
    on_result browser {| response_type := "message";
                         archives := [];
                         total := 0;
                         query := utterance;
                         message := Some text |}
    = [ AppendMessage {| msg_id := toString (clock browser 2 + 1);
                         msg_role := assistant;
                         msg_content := text;
                         msg_timestamp := clock browser 3;
                         msg_files := None;
                         msg_archiveResults := None |} ].
Proof.
  intros Hintent. unfold search, refinement_controller, bind.
  destruct (classify utterance); [now elim Hintent | | |];
    eexists; (split; [reflexivity |]); split; reflexivity.
Qed.

Lemma non_search_intent_gets_canned_message_witness :
  (fun _ : string => GREETING) "hello" <> HERITAGE_SEARCH /\
  exists text : string,
    canned_response ((fun _ : string => GREETING) "hello") = Some text /\
    search (fun _ => GREETING) (fun _ => ret (Results [])) "hello" first_store
    = (first_store,
       inr {| response_type := "message";
              archives := [];
              total := 0;
              query := "hello";
              message := Some text |}) /\
    on_result failing_browser {| response_type := "message";
                                 archives := [];
                                 total := 0;
                                 query := "hello";
                                 message := Some text |}
    = [ AppendMessage {| msg_id := toString (clock failing_browser 2 + 1);
                         msg_role := assistant;
                         msg_content := text;
                         msg_timestamp := clock failing_browser 3;
                         msg_files := None;
                         msg_archiveResults := None |} ].
Proof.
  split; [discriminate |].
  apply (non_search_intent_gets_canned_message (fun _ => GREETING)
           (fun _ => ret (Results [])) "hello" first_store failing_browser).
  discriminate.
Defined.

(* ===================================================================== *)
(** ** Part IX.  The best result set                                      *)
(* ===================================================================== *)

(** [wrap_tool_call] has no statement that writes [best_results]. *)
Lemma wrap_tool_call_keeps_best_results (self : SearchRefinementMiddleware)
  (request : ToolRequest) (handler : Handler) (s : Store) :
  best_results (agent_state (fst (wrap_tool_call self request handler s)))
  = best_results (agent_state s).
Proof.
  destruct (is_search_call request) eqn:Hname.
  - destruct (handler request) as [e | result] eqn:Hr.
    + rewrite (wrap_tool_call_raises self request handler s e Hname Hr).
      apply best_results_before.
    + rewrite (wrap_tool_call_returns self request handler s result Hname Hr).
      apply best_results_after.
  - rewrite (wrap_tool_call_other self request handler s Hname). reflexivity.
Qed.

(** C8 (what the code does).  In a session whose first attempt finds a 0.25
    match and whose second attempt finds a 0.55 match, the session ends after
    the second attempt with the 0.55 match, and [bestResultSet] is empty
    before, between and after the two attempts: neither attempt, though its
    top similarity exceeds that of the stored set, replaces it. *)
Theorem best_results_never_replaced :
  let run := session_after default_middleware improving_results
                           lengthening_agent (Some "batik") "call_1" in
  bestResultSet (run 0%nat) = [] /\
  attemptCount (run 1%nat) = 1 /\
  bestResultSet (run 1%nat) = [] /\
  attemptCount (run 2%nat) = 2 /\
  surfaced_items (run 2%nat) = [scored "batik" 0.55%float] /\
  bestResultSet (run 2%nat) = [].
Proof. vm_compute. repeat split. Qed.

(* ===================================================================== *)
(** ** Part X.  The scenarios of the specification                        *)
(* ===================================================================== *)

(** Scenario C: a first attempt with a 0.55 match is good enough. *)
Example scenario_good_first_attempt :
  let c := session_after default_middleware
             (fun _ _ => inr (VTuple "Found 3 archive(s)."
                                     [scored "a" 0.55%float;
                                      scored "b" 0.35%float;
                                      scored "c" 0.31%float]))
             lengthening_agent (Some "traditional Kelantan batik textiles")
             "call_1" 1 in
  is_terminal c = true /\ attemptCount c = 1 /\
  List.length (surfaced_items c) = 3%nat.
Proof. vm_compute. repeat split. Qed.

(** Scenario D, as the middleware runs it: three attempts, three queries,
    and the third attempt's result handed back. *)
Example scenario_three_weak_attempts :
  let c := session_after default_middleware weak_results lengthening_agent
                         (Some "something") "call_1" 3 in
  attemptCount c = 3 /\
  queriesTried c = [Some "something"; Some "**********"; Some "***********"] /\
  surfaced_text c = Some "Found 2 archive(s)." /\
  surfaced_items c = [scored "songket" 0.3%float; scored "kite" 0.2%float].
Proof. vm_compute. repeat split. Qed.

(** A score equal to the threshold is good enough; a missing score counts
    as 0. *)
Example evaluate_at_threshold :
  _evaluate_results default_middleware [scored "a" 0.4%float] = true /\
  _evaluate_results default_middleware [scored "a" 0.39%float] = false /\
  _evaluate_results default_middleware [] = false /\
  _evaluate_results default_middleware
    [{| archive_id := "a"; archive_title := "a"; archive_description := None;
        archive_media_types := []; archive_dates := None;
        archive_created_at := EmptyString; archive_tags := None;
        archive_file_uris := None; archive_storage_paths := None;
        similarity := None |}] = false.
Proof. vm_compute. repeat split. Qed.

(** [trim] strips both ends and keeps inner white space. *)
Example trim_examples :
  trim "  batik  kelantan " = "batik  kelantan" /\ trim "   " = EmptyString /\
  trim EmptyString = EmptyString.
Proof. vm_compute. repeat split. Qed.

(** [normalizeFileUri] on the shapes the storage service returns. *)
Example normalizeFileUri_examples :
  normalizeFileUri (JsString "https://x.example/a.png")
  = Some "https://x.example/a.png" /\
  normalizeFileUri (JsString "uploads/a.png") = None /\
  normalizeFileUri (JsObject JsUndefined
                      (JsObject (JsString "http://x.example/b.png") JsUndefined))
  = Some "http://x.example/b.png" /\
  normalizeFileUri (JsObject (JsString EmptyString) JsUndefined) = None.
Proof. vm_compute. repeat split. Qed.

(** A results response is shown with its archives and a success toast. *)
Example handleSend_shows_results :
  let browser :=
    {| clock := fun k => 1700000000000 + Z.of_nat k;
       createObjectURL := fun _ file => "blob:" ++ file_name file;
       aiSearchArchives := fun q =>
         inr {| response_type := "results";
                archives := [scored "batik" 0.55%float];
                total := 1; query := q; message := None |} |} in
  api_calls (handleSend browser batik_panel) = ["batik"] /\
  toasts (handleSend browser batik_panel)
  = [(toast_success, "Found 1 matching archive(s)")] /\
  map msg_id (appended (handleSend browser batik_panel))
  = ["1700000000000"; "1700000000003"] /\
  isTyping (panel_after batik_panel (handleSend browser batik_panel)) = false /\
  input (panel_after batik_panel (handleSend browser batik_panel)) = EmptyString.
Proof. vm_compute. repeat split. Qed.

(* ===================================================================== *)
(** ** Part XI.  Further properties of the middleware                     *)
(* ===================================================================== *)

Section SessionInduction.

Variable self : SearchRefinementMiddleware.
Variable env : Env.
Variable agent : Agent.
Variable query : option string.
Variable id : string.

(** Induction over the configurations of a session: a property of the start
    that every turn on a search request preserves holds after every step. *)
Lemma session_induction (P : Config -> Prop) :
  P (session_start query id) ->
  (forall (s : Store) (request : ToolRequest) (c' : Config),
      is_search_call request = true ->
      P (AgentCalls s request) ->
      turn_spec self env agent s request c' -> P c') ->
  forall n : nat, P (session_after self env agent query id n).
Proof.
  intros Hstart Hstep. induction n as [| n IH]; [exact Hstart |].
  pose proof (session_requests_are_searches self env agent query id n) as Hname.
  unfold session_after in *. rewrite Nat.iter_succ.
  destruct (Nat.iter n (session_step self env agent) (session_start query id))
    as [s request | s result | s e]; [| exact IH | exact IH].
  apply (Hstep s request); [now apply (Hname s request) | exact IH |].
  now apply session_step_search, (Hname s request).
Qed.

End SessionInduction.

(** What [wrap_tool_call] answers to a search call, by cases. *)
Lemma wrap_tool_call_search_reply (self : SearchRefinementMiddleware)
  (request : ToolRequest) (handler : Handler) (s : Store) :
  is_search_call request = true ->
  snd (wrap_tool_call self request handler s) =
  match handler request with
  | inl e => inl e
  | inr result =>
      inr (if _evaluate_results self (archives_of result)
              || (get_attempt_count (agent_state s) + 1 >=? max_attempts self)%Z
           then ToolResult result
           else RefinementRequest
                  {| content :=
                       refinement_content
                         (List.length (archives_of result))
                         (get_previous_queries (agent_state s)
                            ++ [tc_args_query (tool_call request)])%list
                         (if (get_attempt_count (agent_state s) =? 0)%Z
                          then tc_args_query (tool_call request)
                          else original_user_query (agent_state s));
                     tool_call_id := tc_id (tool_call request) |})
  end.
Proof.
  intros Hname. destruct (handler request) as [e | result] eqn:Hr.
  - now rewrite (wrap_tool_call_raises self request handler s e Hname Hr).
  - now rewrite (wrap_tool_call_returns self request handler s result Hname Hr).
Qed.

(** X1.  On a search call, [wrap_tool_call] answers with a refinement request
    exactly when the tool returned, what it returned is not good enough, and
    [attempt_count + 1] is still below [max_attempts]; the request then
    carries the id of the tool call, the number of archives found, the
    queries tried with the current one at the end, and the original query. *)
Theorem refinement_requested_iff (self : SearchRefinementMiddleware)
  (request : ToolRequest) (handler : Handler) (s : Store) (m : ToolMessage) :
  is_search_call request = true ->
  snd (wrap_tool_call self request handler s) = inr (RefinementRequest m) <->
  exists result : ToolValue,
    handler request = inr result /\
    _evaluate_results self (archives_of result) = false /\
    get_attempt_count (agent_state s) + 1 < max_attempts self /\
    m = {| content :=
             refinement_content
               (List.length (archives_of result))
               (get_previous_queries (agent_state s)
                  ++ [tc_args_query (tool_call request)])%list
               (if (get_attempt_count (agent_state s) =? 0)%Z
                then tc_args_query (tool_call request)
                else original_user_query (agent_state s));
           tool_call_id := tc_id (tool_call request) |}.
Proof.
  intros Hname. rewrite (wrap_tool_call_search_reply self request handler s Hname).
  destruct (handler request) as [e | result]; split.
  - discriminate.
  - intros (r & Hr & _); discriminate Hr.
  - destruct (_evaluate_results self (archives_of result)) eqn:Hgood;
      [discriminate |].
    destruct (get_attempt_count (agent_state s) + 1 >=? max_attempts self)%Z
      eqn:Hmax; cbn [orb]; [discriminate |].
    intros [= <-]. exists result.
    split; [reflexivity | split; [exact Hgood | split; [lia | reflexivity]]].
  - intros (r & [= <-] & Hgood & Hlt & ->). rewrite Hgood.
    destruct (get_attempt_count (agent_state s) + 1 >=? max_attempts self)%Z
      eqn:Hmax; [lia | reflexivity].
Qed.

(** X2.  Bookkeeping of a session.  After every step the attempt counter is
    the number of queries tried, and the queries tried are, in order, the
    queries of the requests that reached the tool; when the tool raised, the
    failing request reached the tool but its query is not among the queries
    tried and it is not counted. *)
Theorem session_bookkeeping (self : SearchRefinementMiddleware) (env : Env)
  (agent : Agent) (query : option string) (id : string) (n : nat) :
  let c := session_after self env agent query id n in
  let sent :=
    map (fun r => tc_args_query (tool_call r)) (tool_log (store_of c)) in
  attemptCount c = Z.of_nat (List.length (queriesTried c)) /\
  match c with
  | ToolFailed _ _ => exists q, sent = (queriesTried c ++ [q])%list
  | AgentCalls _ _ | AgentHolds _ _ => sent = queriesTried c
  end.
Proof.
  cbv zeta.
  apply (session_induction self env agent query id
           (fun c =>
              attemptCount c = Z.of_nat (List.length (queriesTried c)) /\
              match c with
              | ToolFailed _ _ =>
                  exists q,
                    map (fun r => tc_args_query (tool_call r))
                        (tool_log (store_of c))
                    = (queriesTried c ++ [q])%list
              | AgentCalls _ _ | AgentHolds _ _ =>
                  map (fun r => tc_args_query (tool_call r))
                      (tool_log (store_of c))
                  = queriesTried c
              end)).
  - split; reflexivity.
  - intros s request c' _ [Hcount Hsent] Hturn.
    unfold attemptCount, queriesTried in *. cbn [store_of] in Hcount, Hsent.
    destruct Hturn; cbn [store_of agent_state tool_log];
      rewrite ?attempt_count_before, ?attempt_count_after,
              ?previous_queries_before, ?previous_queries_after,
              ?map_app, ?length_app, ?Hsent;
      cbn [map List.length].
    + split; [exact Hcount | eexists; reflexivity].
    + split; [lia | reflexivity].
    + split; [lia | reflexivity].
Qed.

(** X3.  Once a first search has been issued, [original_user_query] holds the
    query of that first search, whether the tool returned or raised, and no
    refinement overwrites it. *)
Theorem original_query_is_first_query (self : SearchRefinementMiddleware)
  (env : Env) (agent : Agent) (query : option string) (id : string) (n : nat) :
  original_user_query
    (agent_state (store_of (session_after self env agent query id (S n))))
  = query.
Proof.
  assert (Hinv : forall k,
            let c := session_after self env agent query id k in
            match c with
            | AgentCalls s request =>
                (get_attempt_count (agent_state s) = 0 /\
                 tc_args_query (tool_call request) = query) \/
                (1 <= get_attempt_count (agent_state s) /\
                 original_user_query (agent_state s) = query)
            | AgentHolds s _ | ToolFailed s _ =>
                original_user_query (agent_state s) = query
            end).
  { apply (session_induction self env agent query id
             (fun c =>
                match c with
                | AgentCalls s request =>
                    (get_attempt_count (agent_state s) = 0 /\
                     tc_args_query (tool_call request) = query) \/
                    (1 <= get_attempt_count (agent_state s) /\
                     original_user_query (agent_state s) = query)
                | AgentHolds s _ | ToolFailed s _ =>
                    original_user_query (agent_state s) = query
                end)).
    - left. split; reflexivity.
    - intros s request c' _ Hc Hturn.
      assert (Horig : original_user_query
                        (state_before_search request (agent_state s)) = query).
      { unfold state_before_search.
        destruct Hc as [[H0 Hq] | [H1 Ho]].
        - rewrite H0. cbn. exact Hq.
        - destruct (get_attempt_count (agent_state s) =? 0)%Z eqn:Hz;
            [lia | exact Ho]. }
      assert (Hnonneg : 0 <= get_attempt_count (agent_state s))
        by (destruct Hc as [[H0 _] | [H1 _]]; lia).
      destruct Hturn; cbn [agent_state]; try exact Horig.
      right. rewrite attempt_count_after. split; [lia | exact Horig]. }
  specialize (Hinv n). cbv zeta in Hinv.
  pose proof (session_requests_are_searches self env agent query id n) as Hname.
  unfold session_after in *. rewrite Nat.iter_succ.
  destruct (Nat.iter n (session_step self env agent) (session_start query id))
    as [s request | s result | s e]; [| exact Hinv | exact Hinv].
  assert (Horig : original_user_query
                    (state_before_search request (agent_state s)) = query).
  { unfold state_before_search.
    destruct Hinv as [[H0 Hq] | [H1 Ho]].
    - rewrite H0. cbn. exact Hq.
    - destruct (get_attempt_count (agent_state s) =? 0)%Z eqn:Hz;
        [lia | exact Ho]. }
  destruct (session_step_search self env agent s request
              (Hname s request eq_refl));
    cbn [store_of agent_state]; exact Horig.
Qed.

(** X4.  Every session ends: whatever the tool and the agent do, the loop has
    stopped after [max_attempts] steps, and after one step when
    [max_attempts] is below 1. *)
Theorem session_terminates (self : SearchRefinementMiddleware) (env : Env)
  (agent : Agent) (query : option string) (id : string) :
  is_terminal
    (session_after self env agent query id
       (Z.to_nat (Z.max 1 (max_attempts self)))) = true.
Proof.
  assert (Hinv : forall n,
            match session_after self env agent query id n with
            | AgentCalls s _ =>
                get_attempt_count (agent_state s) = Z.of_nat n /\
                (n = 0%nat \/ Z.of_nat n < max_attempts self)
            | AgentHolds _ _ | ToolFailed _ _ => True
            end).
  { induction n as [| n IH]; [split; [reflexivity | now left] |].
    pose proof (session_requests_are_searches self env agent query id n)
      as Hname.
    unfold session_after in *. rewrite Nat.iter_succ.
    destruct (Nat.iter n (session_step self env agent)
                (session_start query id))
      as [s request | s result | s e]; [| exact I | exact I].
    destruct IH as [Hcount _].
    destruct (session_step_search self env agent s request
                (Hname s request eq_refl)); [exact I | exact I |].
    cbn [agent_state]. rewrite attempt_count_after. split; [lia |].
    right. lia. }
  specialize (Hinv (Z.to_nat (Z.max 1 (max_attempts self)))).
  destruct (session_after self env agent query id
              (Z.to_nat (Z.max 1 (max_attempts self))));
    [| reflexivity | reflexivity].
  destruct Hinv as [_ [H0 | Hlt]]; lia.
Qed.

Lemma step_extends (self : SearchRefinementMiddleware) (env : Env)
  (agent : Agent) (c : Config) :
  attemptCount c <= attemptCount (session_step self env agent c) /\
  exists more : list (option string),
    queriesTried (session_step self env agent c)
    = (queriesTried c ++ more)%list.
Proof.
  destruct c as [s request | s result | s e].
  - destruct (is_search_call request) eqn:Hname.
    + unfold attemptCount, queriesTried.
      destruct (session_step_search self env agent s request Hname);
        cbn [store_of agent_state];
        rewrite ?attempt_count_before, ?attempt_count_after,
                ?previous_queries_before, ?previous_queries_after.
      * split; [lia | exists []; now rewrite app_nil_r].
      * split; [lia | eexists; reflexivity].
      * split; [lia | eexists; reflexivity].
    + unfold session_step.
      rewrite (wrap_tool_call_other self request _ s Hname).
      unfold attemptCount, queriesTried.
      destruct (env (List.length (tool_log s)) request);
        cbn [store_of agent_state];
        (split; [lia | exists []; now rewrite app_nil_r]).
  - cbn [session_step]. split; [lia | exists []; now rewrite app_nil_r].
  - cbn [session_step]. split; [lia | exists []; now rewrite app_nil_r].
Qed.

(** X5.  The history of a session only grows: from any step to any later
    step the attempt counter does not decrease, and the list of queries tried
    is extended at its end, its earlier entries kept as they were. *)
Theorem queries_tried_append_only (self : SearchRefinementMiddleware)
  (env : Env) (agent : Agent) (query : option string) (id : string)
  (n k : nat) :
  let earlier := session_after self env agent query id n in
  let later := session_after self env agent query id (k + n) in
  attemptCount earlier <= attemptCount later /\
  exists more : list (option string),
    queriesTried later = (queriesTried earlier ++ more)%list.
Proof.
  cbv zeta. rewrite session_after_add.
  induction k as [| k [IHcount [more IHq]]].
  - split; [cbn; lia | exists []; cbn; now rewrite app_nil_r].
  - rewrite Nat.iter_succ.
    destruct (step_extends self env agent
                (Nat.iter k (session_step self env agent)
                   (session_after self env agent query id n)))
      as [Hcount [more' Hq]].
    split; [lia |].
    exists (more ++ more')%list. rewrite Hq, IHq. now rewrite app_assoc.
Qed.

(** X6.  A good enough result ends the session at once: when, at any attempt,
    the tool returns a result that [_evaluate_results] accepts, the session
    holds from the next step on exactly that result, unchanged, and the
    attempt is counted and its query recorded. *)
Theorem good_result_ends_session (self : SearchRefinementMiddleware)
  (env : Env) (agent : Agent) (query : option string) (id : string)
  (n : nat) (s : Store) (request : ToolRequest) (result : ToolValue) :
  session_after self env agent query id n = AgentCalls s request ->
  env (List.length (tool_log s)) request = inr result ->
  _evaluate_results self (archives_of result) = true ->
  forall m : nat, (n < m)%nat ->
    session_after self env agent query id m
    = AgentHolds
        {| agent_state := state_after_search request (agent_state s);
           tool_log := (tool_log s ++ [request])%list |} result.
Proof.
  intros Hn Hr Hgood m Hlt.
  replace m with ((m - S n) + S n)%nat by lia.
  rewrite session_after_add.
  assert (Hdone : session_after self env agent query id (S n)
                  = AgentHolds
                      {| agent_state :=
                           state_after_search request (agent_state s);
                         tool_log := (tool_log s ++ [request])%list |} result).
  { pose proof (session_requests_are_searches self env agent query id n
                  s request Hn) as Hname.
    unfold session_after in *. rewrite Nat.iter_succ, Hn.
    destruct (session_step_search self env agent s request Hname);
      congruence. }
  rewrite Hdone. now apply iter_terminal.
Qed.

(** X7.  The counter is never reset.  On a state whose
    [search_attempt_count] has already reached [max_attempts - 1] or more, a
    search call whose tool returns is answered with the tool result, however
    poor, never with a refinement request; the counter goes on growing, and a
    counter that was not 0 leaves [original_user_query] as it was. *)
Theorem spent_budget_disables_refinement (self : SearchRefinementMiddleware)
  (request : ToolRequest) (handler : Handler) (s : Store)
  (result : ToolValue) :
  is_search_call request = true ->
  handler request = inr result ->
  max_attempts self <= get_attempt_count (agent_state s) + 1 ->
  let (s', reply) := wrap_tool_call self request handler s in
  reply = inr (ToolResult result) /\
  get_attempt_count (agent_state s') = get_attempt_count (agent_state s) + 1 /\
  (get_attempt_count (agent_state s) <> 0 ->
   original_user_query (agent_state s')
   = original_user_query (agent_state s)).
Proof.
  intros Hname Hr Hspent.
  rewrite (wrap_tool_call_returns self request handler s result Hname Hr).
  split; [| split].
  - destruct (get_attempt_count (agent_state s) + 1 >=? max_attempts self)%Z
      eqn:Hmax; [| lia].
    now rewrite orb_true_r.
  - reflexivity.
  - intros Hnz. cbn [agent_state]. unfold state_after_search. cbn.
    unfold state_before_search.
    destruct (get_attempt_count (agent_state s) =? 0)%Z eqn:Hz; [lia |].
    reflexivity.
Qed.

(** *** Further properties of the relevance evaluator *)

Lemma evaluate_results_existsb (self : SearchRefinementMiddleware)
  (archives : list Archive) :
  _evaluate_results self archives
  = existsb
      (fun archive =>
         (min_similarity_threshold self <=? get_similarity archive)%float)
      archives.
Proof. destruct archives; reflexivity. Qed.

(** X8.  The verdict on two result lists put together is the disjunction of
    the verdicts on each: more results never turn a good enough list into
    one that needs refinement. *)
Theorem evaluate_results_app (self : SearchRefinementMiddleware)
  (xs ys : list Archive) :
  _evaluate_results self (xs ++ ys)
  = _evaluate_results self xs || _evaluate_results self ys.
Proof.
  rewrite !evaluate_results_existsb. apply existsb_app.
Qed.

(** X9.  The verdict does not depend on the order in which the tool returns
    the archives. *)
Theorem evaluate_results_permutation (self : SearchRefinementMiddleware)
  (xs ys : list Archive) :
  Permutation xs ys ->
  _evaluate_results self xs = _evaluate_results self ys.
Proof.
  intros Hperm. rewrite !evaluate_results_existsb.
  induction Hperm as [| x l l' _ IH | x y l | l l' l'' _ IH1 _ IH2];
    cbn [existsb].
  - reflexivity.
  - now rewrite IH.
  - rewrite !orb_assoc.
    now rewrite (orb_comm (_ <=? get_similarity y)%float).
  - now rewrite IH1.
Qed.

(** X10.  An archive without the key "similarity" is scored 0: a non-empty
    list in which no archive has the key is good enough exactly when the
    threshold is at most 0, hence never with the default threshold. *)
Theorem evaluate_results_missing_similarity
  (self : SearchRefinementMiddleware) (archives : list Archive) :
  archives <> [] ->
  (forall archive, In archive archives -> similarity archive = None) ->
  _evaluate_results self archives
  = (min_similarity_threshold self <=? 0)%float.
Proof.
  intros Hne Hnone. rewrite evaluate_results_existsb.
  induction archives as [| a rest IH]; [now elim Hne |].
  cbn [existsb]. unfold get_similarity at 1.
  rewrite (Hnone a (or_introl eq_refl)).
  destruct rest as [| b rest'].
  - cbn. apply orb_false_r.
  - rewrite IH; [apply orb_diag | discriminate |].
    intros x Hx. apply Hnone. now right.
Qed.

(** X11.  A tool result that is not a tuple is handled as an empty result:
    the call is counted as an attempt; below the budget the answer is a
    refinement request that reports 0 results; at the budget the value is
    handed back as it is. *)
Theorem non_tuple_result_counts_as_empty (self : SearchRefinementMiddleware)
  (request : ToolRequest) (handler : Handler) (s : Store) (payload : string) :
  is_search_call request = true ->
  handler request = inr (VOther payload) ->
  let (s', reply) := wrap_tool_call self request handler s in
  get_attempt_count (agent_state s') = get_attempt_count (agent_state s) + 1 /\
  (get_attempt_count (agent_state s) + 1 < max_attempts self ->
   exists m : ToolMessage,
     reply = inr (RefinementRequest m) /\
     nth_error (content m) 1 = Some (FmtLen 0)) /\
  (max_attempts self <= get_attempt_count (agent_state s) + 1 ->
   reply = inr (ToolResult (VOther payload))).
Proof.
  intros Hname Hr.
  rewrite (wrap_tool_call_returns self request handler s _ Hname Hr).
  cbn [archives_of _evaluate_results orb List.length].
  split; [reflexivity | split]; intros Hcmp;
    destruct (get_attempt_count (agent_state s) + 1 >=? max_attempts self)%Z
      eqn:Hmax; try lia.
  - eexists. split; reflexivity.
  - reflexivity.
Qed.

(* ===================================================================== *)
(** ** Part XII.  Further properties of the chat panel                    *)
(* ===================================================================== *)

Lemma normalizeFileUri_object (inner data : JsValue) :
  js_truthy inner = true ->
  normalizeFileUri (JsObject inner data) = normalizeFileUri inner.
Proof. destruct inner as [| | [| c s] | p d]; try discriminate; reflexivity. Qed.

Lemma normalizeFileUri_full (uri : JsValue) (url : string) :
  normalizeFileUri uri = Some url -> is_full_url url = true.
Proof.
  revert url. induction uri as [| | s | publicUrl IHp data IHd]; intros url.
  - discriminate.
  - discriminate.
  - cbn [normalizeFileUri]. destruct (js_truthy (JsString s)); [| discriminate].
    unfold normalize_string, is_full_url.
    destruct (String.prefix "http://" s || String.prefix "https://" s) eqn:Hp;
      [| discriminate].
    now intros [= <-].
  - cbn [normalizeFileUri].
    destruct publicUrl as [| | t | p d].
    + destruct data as [| | t | inner d2]; try discriminate.
      destruct (js_truthy inner) eqn:Hinner; [| discriminate].
      rewrite <- (normalizeFileUri_object inner d2 Hinner). apply IHd.
    + destruct data as [| | t | inner d2]; try discriminate.
      destruct (js_truthy inner) eqn:Hinner; [| discriminate].
      rewrite <- (normalizeFileUri_object inner d2 Hinner). apply IHd.
    + destruct (js_truthy (JsString t)); [apply IHp | discriminate].
    + destruct (js_truthy (JsObject p d)); [apply IHp | discriminate].
Qed.

Lemma full_url_not_empty (url : string) :
  is_full_url url = true -> url <> EmptyString.
Proof. intros H ->. discriminate H. Qed.

Lemma normalize_all_full (uris : list JsValue) :
  Forall (fun url => is_full_url url = true) (normalize_all uris).
Proof.
  induction uris as [| uri rest IH]; cbn [normalize_all]; [constructor |].
  destruct (normalizeFileUri uri) as [[| c url] |] eqn:Hn; try exact IH.
  constructor; [| exact IH]. now apply (normalizeFileUri_full uri).
Qed.

Lemma normalize_all_length (uris : list JsValue) :
  (List.length (normalize_all uris) <= List.length uris)%nat.
Proof.
  induction uris as [| uri rest IH]; cbn [normalize_all List.length]; [lia |].
  destruct (normalizeFileUri uri) as [[| c url] |]; cbn [List.length]; lia.
Qed.

(** X12.  [normalizeFileUri] never returns anything but a full URL: whatever
    value it is given, a string or an object with nested [publicUrl]s, a
    result, when there is one, starts with "http://" or "https://"; relative
    paths and empty strings are dropped. *)
Theorem normalizeFileUri_returns_full_url (uri : JsValue) :
  match normalizeFileUri uri with
  | Some url =>
      (String.prefix "http://" url || String.prefix "https://" url) = true /\
      url <> EmptyString
  | None => True
  end.
Proof.
  destruct (normalizeFileUri uri) as [url |] eqn:Hn; [| exact I].
  pose proof (normalizeFileUri_full uri url Hn) as Hfull.
  split; [exact Hfull | now apply full_url_not_empty].
Qed.

(** X13.  Every archive item the chat panel builds has a usable file URL: its
    [file_uris] are all full URLs, at most as many as the archive had; its
    [fileUrl] is the first of them, or the placeholder image when there is
    none, so it is always a full URL; and its [thumbnail] is its [fileUrl]. *)
Theorem toArchiveItem_urls (archive : Archive) :
  let item := toArchiveItem archive in
  Forall (fun url => is_full_url url = true) (item_file_uris item) /\
  (List.length (item_file_uris item) <= List.length (uris_of archive))%nat /\
  item_fileUrl item
  = hd "https://via.placeholder.com/400" (item_file_uris item) /\
  is_full_url (item_fileUrl item) = true /\
  item_thumbnail item = item_fileUrl item.
Proof.
  cbv zeta. unfold toArchiveItem. cbn [item_file_uris item_fileUrl item_thumbnail].
  pose proof (normalize_all_full (uris_of archive)) as Hfull.
  pose proof (normalize_all_length (uris_of archive)) as Hlen.
  destruct (normalize_all (uris_of archive)) as [| url rest].
  - repeat split; [constructor | exact Hlen].
  - inversion Hfull as [| ? ? Hurl _]; subst.
    assert (Hfirst : first_or (url :: rest) "https://via.placeholder.com/400"
                     = url).
    { cbn [first_or]. destruct url; [discriminate Hurl | reflexivity]. }
    rewrite Hfirst. repeat split; assumption.
Qed.

(** X14.  [storage_paths] is read only when the key [file_uris] is absent.
    With [file_uris] present, even as an empty array, the item does not
    depend on [storage_paths]; an archive with [file_uris: []] gets the
    placeholder image whatever its [storage_paths] hold. *)
Theorem file_uris_shadow_storage_paths (archive other : Archive)
  (uris : list JsValue) :
  archive_file_uris archive = Some uris ->
  archive_file_uris other = Some uris ->
  archive_id other = archive_id archive ->
  archive_title other = archive_title archive ->
  archive_description other = archive_description archive ->
  archive_media_types other = archive_media_types archive ->
  archive_dates other = archive_dates archive ->
  archive_created_at other = archive_created_at archive ->
  archive_tags other = archive_tags archive ->
  toArchiveItem other = toArchiveItem archive /\
  (uris = [] ->
   item_fileUrl (toArchiveItem archive) = "https://via.placeholder.com/400" /\
   item_file_uris (toArchiveItem archive) = []).
Proof.
  intros Ha Ho Hid Htitle Hdesc Hmedia Hdates Hcreated Htags.
  unfold toArchiveItem, uris_of.
  rewrite Ha, Ho, Hid, Htitle, Hdesc, Hmedia, Hdates, Hcreated, Htags.
  split; [reflexivity |]. intros ->. split; reflexivity.
Qed.

(** What an answer, or a failure, makes [handleSend] append and raise: one
    assistant message, then toasts only. *)
Lemma on_result_shape (browser : Browser) (result : SearchResponse) :
  exists (reply : ChatMessage) (raised : list Action),
    on_result browser result = AppendMessage reply :: raised /\
    msg_role reply = assistant /\
    appended raised = [] /\ api_calls raised = [] /\
    (forall panel : PanelState, panel_after panel raised = panel).
Proof.
  unfold on_result.
  destruct (String.eqb (response_type result) "message").
  - eexists; exists []. repeat split.
  - eexists; eexists. split; [reflexivity |].
    destruct (map toArchiveItem (archives result)); repeat split.
Qed.

Lemma on_error_shape (browser : Browser) (error : Thrown) :
  exists (reply : ChatMessage) (raised : list Action),
    on_error browser error = AppendMessage reply :: raised /\
    msg_role reply = assistant /\
    appended raised = [] /\ api_calls raised = [] /\
    (forall panel : PanelState, panel_after panel raised = panel).
Proof. unfold on_error. eexists; eexists. repeat split. Qed.

Lemma panel_after_app (panel : PanelState) (xs ys : list Action) :
  panel_after panel (xs ++ ys) = panel_after (panel_after panel xs) ys.
Proof. apply fold_left_app. Qed.

(** X15.  A call of [handleSend] that is not ignored always runs to the same
    end, whether the search answers or fails: the input field and the
    selected files are cleared, the typing indicator is off again, exactly
    one search request was sent, with the trimmed input as its query, and
    exactly two messages were added after the earlier ones, the user's and
    then the assistant's. *)
Theorem handleSend_completes (browser : Browser) (panel : PanelState) :
  trim (input panel) <> EmptyString \/ selectedFiles panel <> [] ->
  exists userMessage reply : ChatMessage,
    msg_role userMessage = user /\
    msg_role reply = assistant /\
    panel_after panel (handleSend browser panel)
    = {| messages := (messages panel ++ [userMessage; reply])%list;
         input := EmptyString;
         selectedFiles := [];
         isTyping := false |} /\
    api_calls (handleSend browser panel) = [trim (input panel)].
Proof.
  intros Hsome.
  destruct (handleSend_sends browser panel Hsome) as (um & Hrole & Hsend).
  assert (Hshape : exists (reply : ChatMessage) (raised : list Action),
             match aiSearchArchives browser (trim (input panel)) with
             | inr result => on_result browser result
             | inl error => on_error browser error
             end = AppendMessage reply :: raised /\
             msg_role reply = assistant /\
             appended raised = [] /\ api_calls raised = [] /\
             (forall p : PanelState, panel_after p raised = p)).
  { destruct (aiSearchArchives browser (trim (input panel)));
      [apply on_error_shape | apply on_result_shape]. }
  destruct Hshape as (reply & raised & Hmid & Hreply & _ & Hcalls & Hsame).
  rewrite Hmid in Hsend. exists um, reply.
  split; [exact Hrole | split; [exact Hreply |]].
  rewrite Hsend. split.
  - rewrite !panel_after_app.
    change (panel_after ?p (AppendMessage reply :: raised))
      with (panel_after (apply_action p (AppendMessage reply)) raised).
    rewrite Hsame. cbn. now rewrite <- app_assoc.
  - cbn [app api_calls flat_map].
    fold (api_calls (raised ++ [SetIsTyping false])).
    rewrite api_calls_app, Hcalls. reflexivity.
Qed.

(** X16.  [handleSend] is ignored only for a blank input without files, and
    the send button agrees with it: whenever the button is enabled, a click
    does send. *)
Theorem handleSend_acts_iff (browser : Browser) (panel : PanelState) :
  (handleSend browser panel = [] <->
   trim (input panel) = EmptyString /\ selectedFiles panel = []) /\
  (send_disabled panel = false -> handleSend browser panel <> []).
Proof.
  assert (Hiff : handleSend browser panel = [] <->
                 trim (input panel) = EmptyString /\ selectedFiles panel = []).
  { split.
    - intros Hnone.
      destruct (trim (input panel)) as [| c rest] eqn:Htrim.
      + split; [reflexivity |].
        destruct (selectedFiles panel) as [| f fs] eqn:Hfiles;
          [reflexivity |].
        destruct (handleSend_sends browser panel) as (um & _ & Hsend).
        { right. rewrite Hfiles. discriminate. }
        rewrite Hsend in Hnone. discriminate Hnone.
      + destruct (handleSend_sends browser panel) as (um & _ & Hsend).
        { left. rewrite Htrim. discriminate. }
        rewrite Hsend in Hnone. discriminate Hnone.
    - intros [Htrim Hfiles]. unfold handleSend.
      rewrite Htrim, Hfiles. reflexivity. }
  split; [exact Hiff |].
  intros Hbutton Hnone. apply Hiff in Hnone. destruct Hnone as [Htrim Hfiles].
  unfold send_disabled in Hbutton. rewrite Htrim, Hfiles in Hbutton.
  discriminate Hbutton.
Qed.

Lemma reply_actions (browser : Browser) (outcome : Thrown + SearchResponse) :
  api_calls match outcome with
            | inr result => on_result browser result
            | inl error => on_error browser error
            end = [].
Proof.
  destruct outcome as [error | result]; [reflexivity |].
  unfold on_result.
  destruct (String.eqb (response_type result) "message"); [reflexivity |].
  destruct (map toArchiveItem (archives result)); reflexivity.
Qed.

Lemma handleSend_calls_once (browser : Browser) (panel : PanelState) :
  trim (input panel) <> EmptyString \/ selectedFiles panel <> [] ->
  api_calls (handleSend browser panel) = [trim (input panel)].
Proof.
  intros Hsome.
  destruct (handleSend_sends browser panel Hsome) as (um & _ & Hsend).
  rewrite Hsend, !api_calls_app, reply_actions. reflexivity.
Qed.

(** With an answer, [handleSend] appends the user message and what the
    answer calls for, and raises the toasts of the answer. *)
Lemma handleSend_answered (browser : Browser) (panel : PanelState)
  (result : SearchResponse) :
  trim (input panel) <> EmptyString \/ selectedFiles panel <> [] ->
  aiSearchArchives browser (trim (input panel)) = inr result ->
  exists userMessage : ChatMessage,
    msg_role userMessage = user /\
    appended (handleSend browser panel)
    = userMessage :: appended (on_result browser result) /\
    toasts (handleSend browser panel) = toasts (on_result browser result).
Proof.
  intros Hsome Hanswer.
  destruct (handleSend_sends browser panel Hsome) as (um & Hrole & Hsend).
  rewrite Hanswer in Hsend. exists um. split; [exact Hrole |].
  rewrite Hsend, !appended_app, !toasts_app. cbn.
  now rewrite !app_nil_r.
Qed.

Lemma attach_names (browser : Browser) (k : nat) (files : list File) :
  map att_name (attach browser k files) = map file_name files /\
  map att_type (attach browser k files) = map file_type files.
Proof.
  revert k. induction files as [| f rest IH]; intros k; [split; reflexivity |].
  cbn [attach map att_name att_type]. destruct (IH (S k)) as [-> ->].
  split; reflexivity.
Qed.

(** X17.  Files alone can be sent, but only their names are used: with a
    blank input and at least one selected file, the user message reads
    "Uploaded files for analysis" and lists one attachment per file, names
    and types in order, while the one search request that is sent carries
    the empty query and nothing of the files. *)
Theorem handleSend_files_only (browser : Browser) (panel : PanelState) :
  trim (input panel) = EmptyString ->
  selectedFiles panel <> [] ->
  exists (userMessage : ChatMessage) (attachments : list Attachment),
    nth_error (handleSend browser panel) 2 = Some (AppendMessage userMessage) /\
    msg_content userMessage = "Uploaded files for analysis" /\
    msg_files userMessage = Some attachments /\
    map att_name attachments = map file_name (selectedFiles panel) /\
    map att_type attachments = map file_type (selectedFiles panel) /\
    api_calls (handleSend browser panel) = [EmptyString].
Proof.
  intros Htrim Hfiles.
  assert (Hsome : trim (input panel) <> EmptyString \/ selectedFiles panel <> [])
    by now right.
  pose proof (handleSend_calls_once browser panel Hsome) as Hcalls.
  rewrite Htrim in Hcalls.
  unfold handleSend in *. rewrite Htrim in *.
  destruct (selectedFiles panel) as [| f fs] eqn:Hsel; [now elim Hfiles |].
  cbn [List.length Nat.eqb andb] in *.
  eexists; eexists. split; [reflexivity |]. cbn [msg_content msg_files or_else].
  split; [reflexivity | split; [reflexivity |]].
  destruct (attach_names browser 0 (f :: fs)) as [Hn Ht].
  split; [exact Hn | split; [exact Ht | exact Hcalls]].
Qed.

(** X18.  A response of type "message" is shown as text only: the assistant
    message carries the response's [message], or the sentence "I can help you
    search our heritage archive." when [message] is null or empty; it never
    carries result items, whatever [archives] the response holds, and no
    toast is raised. *)
Theorem message_response_shows_text_only (browser : Browser)
  (panel : PanelState) (result : SearchResponse) :
  trim (input panel) <> EmptyString \/ selectedFiles panel <> [] ->
  aiSearchArchives browser (trim (input panel)) = inr result ->
  response_type result = "message" ->
  exists userMessage reply : ChatMessage,
    appended (handleSend browser panel) = [userMessage; reply] /\
    msg_role reply = assistant /\
    msg_archiveResults reply = None /\
    (message result = None \/ message result = Some EmptyString ->
     msg_content reply = "I can help you search our heritage archive.") /\
    (forall text : string,
        message result = Some text -> text <> EmptyString ->
        msg_content reply = text) /\
    toasts (handleSend browser panel) = [].
Proof.
  intros Hsome Hanswer Htype.
  destruct (handleSend_answered browser panel result Hsome Hanswer)
    as (um & _ & Happ & Htoasts).
  unfold on_result in Happ, Htoasts. rewrite Htype in Happ, Htoasts.
  cbn in Happ, Htoasts.
  eexists; eexists. split; [exact Happ |].
  cbn [msg_role msg_archiveResults msg_content].
  split; [reflexivity | split; [reflexivity |]].
  split; [| split; [| exact Htoasts]].
  - intros [-> | ->]; reflexivity.
  - intros text -> Hne. destruct text; [now elim Hne | reflexivity].
Qed.

(** X19.  A response of any other type with at least one archive is shown as
    results: the assistant message carries one item per archive, in the
    order of the response and with the same ids and titles, and a success
    toast counts them. *)
Theorem results_response_shows_every_archive (browser : Browser)
  (panel : PanelState) (result : SearchResponse) :
  trim (input panel) <> EmptyString \/ selectedFiles panel <> [] ->
  aiSearchArchives browser (trim (input panel)) = inr result ->
  response_type result <> "message" ->
  archives result <> [] ->
  exists (userMessage reply : ChatMessage) (items : list ArchiveItem),
    appended (handleSend browser panel) = [userMessage; reply] /\
    msg_archiveResults reply = Some items /\
    items = map toArchiveItem (archives result) /\
    map item_id items = map archive_id (archives result) /\
    map item_title items = map archive_title (archives result) /\
    toasts (handleSend browser panel)
    = [(toast_success,
        "Found " ++ nat_toString (List.length (archives result))
                 ++ " matching archive(s)")].
Proof.
  intros Hsome Hanswer Htype Hne.
  destruct (handleSend_answered browser panel result Hsome Hanswer)
    as (um & _ & Happ & Htoasts).
  unfold on_result in Happ, Htoasts.
  apply String.eqb_neq in Htype. rewrite Htype in Happ, Htoasts.
  destruct (archives result) as [| a rest] eqn:Harch; [now elim Hne |].
  cbn [map] in Happ, Htoasts. cbn in Happ, Htoasts.
  eexists; eexists; eexists. split; [exact Happ |].
  cbn [msg_archiveResults].
  split; [reflexivity | split; [reflexivity |]].
  split; [| split].
  - cbn [map toArchiveItem item_id]. f_equal. rewrite map_map. reflexivity.
  - cbn [map toArchiveItem item_title]. f_equal. rewrite map_map. reflexivity.
  - rewrite Htoasts. cbn [List.length]. now rewrite length_map.
Qed.

(** X20.  A response of a type other than "message" that holds no archive is
    shown without a result list: the assistant message has no
    [archiveResults], its text is the response's [message] or empty, and an
    info toast shows that message or, when it is null or empty, "No matching
    archives found. Try different keywords.". *)
Theorem results_response_without_archives (browser : Browser)
  (panel : PanelState) (result : SearchResponse) :
  trim (input panel) <> EmptyString \/ selectedFiles panel <> [] ->
  aiSearchArchives browser (trim (input panel)) = inr result ->
  response_type result <> "message" ->
  archives result = [] ->
  exists userMessage reply : ChatMessage,
    appended (handleSend browser panel) = [userMessage; reply] /\
    msg_archiveResults reply = None /\
    msg_content reply = opt_or_else (message result) EmptyString /\
    toasts (handleSend browser panel)
    = [(toast_info,
        opt_or_else (message result)
          "No matching archives found. Try different keywords.")] /\
    (message result = None \/ message result = Some EmptyString ->
     msg_content reply = EmptyString /\
     toasts (handleSend browser panel)
     = [(toast_info, "No matching archives found. Try different keywords.")]).
Proof.
  intros Hsome Hanswer Htype Hnone.
  destruct (handleSend_answered browser panel result Hsome Hanswer)
    as (um & _ & Happ & Htoasts).
  unfold on_result in Happ, Htoasts.
  apply String.eqb_neq in Htype. rewrite Htype, Hnone in Happ, Htoasts.
  cbn in Happ, Htoasts.
  eexists; eexists. split; [exact Happ |].
  cbn [msg_archiveResults msg_content].
  split; [reflexivity | split; [reflexivity | split; [exact Htoasts |]]].
  intros [Hm | Hm]; rewrite Htoasts, Hm; split; reflexivity.
Qed.

(** *** Selecting and removing files *)

Lemma filter_index_from_spec {A : Type} (xs : list A) :
  forall start idx : nat,
    filter_index_from start idx xs
    = if Nat.ltb idx start then xs
      else (firstn (idx - start) xs ++ skipn (S (idx - start)) xs)%list.
Proof.
  induction xs as [| x rest IH]; intros start idx.
  - cbn [filter_index_from]. destruct (Nat.ltb idx start); [reflexivity |].
    now rewrite firstn_nil, skipn_nil.
  - cbn [filter_index_from]. rewrite IH.
    destruct (Nat.eqb_spec start idx) as [-> | Hne].
    + rewrite Nat.sub_diag.
      destruct (Nat.ltb_spec idx (S idx)); [| lia].
      destruct (Nat.ltb_spec idx idx); [lia | reflexivity].
    + destruct (Nat.ltb_spec idx start) as [Hlt | Hge].
      * destruct (Nat.ltb_spec idx (S start)); [reflexivity | lia].
      * destruct (Nat.ltb_spec idx (S start)); [lia |].
        replace (idx - start)%nat with (S (idx - S start)) by lia.
        reflexivity.
Qed.

(** X21.  The remove button beside the [idx]-th selected file removes that
    file and no other: the files before and after it stay, in order; the
    messages, the input and the typing indicator are untouched; and an index
    past the end removes nothing. *)
Theorem removeSelectedFile_removes_one (idx : nat) (panel : PanelState) :
  let after := panel_after panel (removeSelectedFile idx panel) in
  selectedFiles after
  = (firstn idx (selectedFiles panel)
       ++ skipn (S idx) (selectedFiles panel))%list /\
  messages after = messages panel /\
  input after = input panel /\
  isTyping after = isTyping panel /\
  ((idx < List.length (selectedFiles panel))%nat ->
   S (List.length (selectedFiles after))
   = List.length (selectedFiles panel)) /\
  ((List.length (selectedFiles panel) <= idx)%nat ->
   selectedFiles after = selectedFiles panel).
Proof.
  cbv zeta. unfold removeSelectedFile, panel_after.
  cbn [fold_left apply_action selectedFiles messages input isTyping].
  rewrite filter_index_from_spec. cbn [Nat.ltb Nat.leb]. rewrite Nat.sub_0_r.
  repeat split.
  - intros Hlt. rewrite length_app, length_firstn, length_skipn. lia.
  - intros Hge. rewrite firstn_all2 by exact Hge.
    rewrite skipn_all2 by lia. apply app_nil_r.
Qed.

(** X22.  [handleFileSelect] adds the chosen files after the files already
    selected and announces their number; without a file list it does
    nothing.  Selecting one file and then pressing its remove button gives
    the panel back as it was. *)
Theorem select_then_remove (panel : PanelState) (files : list File)
  (file : File) :
  handleFileSelect None panel = (panel, []) /\
  selectedFiles (fst (handleFileSelect (Some files) panel))
  = (selectedFiles panel ++ files)%list /\
  snd (handleFileSelect (Some files) panel)
  = [(toast_success, nat_toString (List.length files) ++ " file(s) attached")] /\
  let selected := fst (handleFileSelect (Some [file]) panel) in
  panel_after selected
    (removeSelectedFile (List.length (selectedFiles panel)) selected)
  = panel.
Proof.
  split; [reflexivity | split; [reflexivity | split; [reflexivity |]]].
  cbv zeta. unfold removeSelectedFile, panel_after, handleFileSelect.
  cbn [fst fold_left apply_action selectedFiles messages input isTyping].
  rewrite filter_index_from_spec. cbn [Nat.ltb Nat.leb]. rewrite Nat.sub_0_r.
  rewrite firstn_app, Nat.sub_diag, firstn_all. cbn [firstn].
  rewrite skipn_all2 by (rewrite length_app; cbn; lia).
  rewrite !app_nil_r. now destruct panel.
Qed.

(** X23.  The keyboard sends like the button: [handleKeyDown] acts only on an
    unshifted Enter, for which it prevents the default and performs exactly
    the actions of [handleSend]; Shift+Enter and every other key do nothing.
    So a key press changes something only when it is an unshifted Enter on
    a panel with text or files. *)
Theorem handleKeyDown_sends_on_enter (browser : Browser) (e : KeyboardEvent)
  (panel : PanelState) :
  (key e = "Enter" /\ shiftKey e = false ->
   handleKeyDown browser e panel = (true, handleSend browser panel)) /\
  (key e <> "Enter" \/ shiftKey e = true ->
   handleKeyDown browser e panel = (false, [])) /\
  (snd (handleKeyDown browser e panel) <> [] <->
   key e = "Enter" /\ shiftKey e = false /\
   (trim (input panel) <> EmptyString \/ selectedFiles panel <> [])).
Proof.
  unfold handleKeyDown.
  destruct (String.eqb_spec (key e) "Enter") as [Hkey | Hkey];
    destruct (shiftKey e) eqn:Hshift; cbn [andb negb snd].
  - split; [intros [_ H]; discriminate H | split; [reflexivity |]].
    split; [intros H; now elim H | intros (_ & H & _); discriminate H].
  - split; [reflexivity | split; [intros [H | H]; [now elim H | discriminate H] |]].
    split.
    + intros Hact. split; [exact Hkey | split; [reflexivity |]].
      destruct (trim (input panel)) eqn:Htrim; [| left; discriminate].
      destruct (selectedFiles panel) eqn:Hfiles; [| right; discriminate].
      elim Hact. unfold handleSend. now rewrite Htrim, Hfiles.
    + intros (_ & _ & Hsome) Hnone.
      destruct (handleSend_sends browser panel Hsome) as (um & _ & Hsend).
      rewrite Hsend in Hnone. discriminate Hnone.
  - split; [intros [H _]; now elim Hkey | split; [reflexivity |]].
    split; [intros H; now elim H | intros (H & _); now elim Hkey].
  - split; [intros [H _]; now elim Hkey | split; [reflexivity |]].
    split; [intros H; now elim H | intros (H & _); now elim Hkey].
Qed.

(** *** The quick search buttons *)

(** X24.  A quick search is never ignored and takes its query as it is: it
    sends exactly one search request with the query unchanged, blank or
    not; it clears the input and ends with the typing indicator off; it adds
    the user's message, without attachments, and one assistant message; and,
    unlike [handleSend], it leaves the selected files in place. *)
Theorem onSearch_completes (browser : Browser) (query : string)
  (panel : PanelState) :
  exists userMessage reply : ChatMessage,
    msg_role userMessage = user /\
    msg_content userMessage = query /\
    msg_files userMessage = None /\
    msg_role reply = assistant /\
    panel_after panel (onSearch browser query)
    = {| messages := (messages panel ++ [userMessage; reply])%list;
         input := EmptyString;
         selectedFiles := selectedFiles panel;
         isTyping := false |} /\
    api_calls (onSearch browser query) = [query].
Proof.
  assert (Hshape : exists (reply : ChatMessage) (raised : list Action),
             match aiSearchArchives browser query with
             | inr result => on_result browser result
             | inl error => on_error browser error
             end = AppendMessage reply :: raised /\
             msg_role reply = assistant /\
             appended raised = [] /\ api_calls raised = [] /\
             (forall p : PanelState, panel_after p raised = p)).
  { destruct (aiSearchArchives browser query);
      [apply on_error_shape | apply on_result_shape]. }
  destruct Hshape as (reply & raised & Hmid & Hreply & _ & Hcalls & Hsame).
  unfold onSearch. rewrite Hmid.
  exists {| msg_id := toString (clock browser 0);
            msg_role := user;
            msg_content := query;
            msg_timestamp := clock browser 1;
            msg_files := None;
            msg_archiveResults := None |}, reply.
  cbn [msg_role msg_content msg_files].
  split; [reflexivity | split; [reflexivity | split; [reflexivity |]]].
  split; [exact Hreply | split].
  - rewrite !panel_after_app.
    change (panel_after ?p (AppendMessage reply :: raised))
      with (panel_after (apply_action p (AppendMessage reply)) raised).
    rewrite Hsame. cbn. now rewrite <- app_assoc.
  - cbn [app api_calls flat_map].
    fold (api_calls (raised ++ [SetIsTyping false])).
    rewrite api_calls_app, Hcalls. reflexivity.
Qed.

(** X25.  Typing a query and sending it, or pressing a quick search button
    with the same query, lead to the same search and the same reply: for a
    query without surrounding white space, typed with no file selected, the
    two handlers send the same request and from then on perform the same
    actions; their user messages differ only in that the typed one lists an
    empty set of attachments. *)
Theorem onSearch_agrees_with_handleSend (browser : Browser)
  (panel : PanelState) :
  trim (input panel) = input panel ->
  input panel <> EmptyString ->
  selectedFiles panel = [] ->
  skipn 4 (handleSend browser panel)
  = skipn 3 (onSearch browser (input panel)) /\
  exists typed quick : ChatMessage,
    nth_error (handleSend browser panel) 2 = Some (AppendMessage typed) /\
    nth_error (onSearch browser (input panel)) 1 = Some (AppendMessage quick) /\
    msg_id typed = msg_id quick /\
    msg_content typed = msg_content quick /\
    msg_content quick = input panel /\
    msg_timestamp typed = msg_timestamp quick /\
    msg_files typed = Some [] /\
    msg_files quick = None.
Proof.
  intros Htrim Hne Hfiles. unfold handleSend, onSearch.
  rewrite Htrim, Hfiles.
  destruct (input panel) as [| c rest] eqn:Hinput; [now elim Hne |].
  cbn [andb List.length attach or_else app skipn nth_error].
  split; [reflexivity |].
  eexists; eexists. repeat split.
Qed.

(* ===================================================================== *)
(** ** Part XIII.  Properties of App.tsx                                  *)
(* ===================================================================== *)

Lemma before_T_has_no_T (s : string) :
  ~ In "T"%char (list_ascii_of_string (App.before_T s)).
Proof.
  induction s as [| c rest IH]; cbn; [tauto |].
  destruct (Ascii.eqb_spec c "T") as [-> | Hne]; cbn; [tauto |].
  intros [Hc | Hin]; [now elim Hne | now elim IH].
Qed.

Lemma before_T_prefix (s : string) :
  String.prefix (App.before_T s) s = true.
Proof.
  induction s as [| c rest IH]; [reflexivity |].
  cbn [App.before_T]. destruct (Ascii.eqb c "T"); [reflexivity |].
  cbn [String.prefix]. destruct (ascii_dec c c) as [_ | H]; [exact IH |].
  now elim H.
Qed.

(** X26.  Every item [App] builds from a loaded archive is well formed: its
    date is the part of the first date (or of [created_at]) before the first
    'T', so it holds no 'T'; its type is the first media type, or "document";
    it has a thumbnail exactly when that type is "image", and the thumbnail
    is then its file URL; its file URIs are all full URLs, and its file URL
    is the first of them or the placeholder image. *)
Theorem mapArchive_well_formed (archive : Archive) :
  let item := App.mapArchive archive in
  ~ In "T"%char (list_ascii_of_string (App.date item)) /\
  App.type item = hd "document" (archive_media_types archive) /\
  (App.thumbnail item <> None <-> App.type item = "image") /\
  (forall url, App.thumbnail item = Some url -> url = App.fileUrl item) /\
  Forall (fun url => is_full_url url = true) (App.file_uris item) /\
  App.fileUrl item = hd "https://via.placeholder.com/400" (App.file_uris item) /\
  is_full_url (App.fileUrl item) = true.
Proof.
  cbv zeta. unfold App.mapArchive.
  cbn [App.date App.type App.thumbnail App.file_uris App.fileUrl].
  split; [| split; [| split; [| split; [| split; [| split]]]]].
  - destruct (archive_dates archive) as [[| d ds] |]; apply before_T_has_no_T.
  - now destruct (archive_media_types archive).
  - destruct (String.eqb_spec
                match archive_media_types archive with
                | [] => "document"
                | first :: _ => first
                end "image") as [Heq | Hne].
    + split; [intros _; exact Heq | intros _; discriminate].
    + split; [intros H; now elim H | intros H; now elim Hne].
  - intros url.
    destruct (String.eqb _ "image"); [now intros [= <-] | discriminate].
  - destruct (archive_file_uris archive); [apply normalize_all_full | constructor].
  - destruct (archive_file_uris archive) as [uris |]; [| reflexivity].
    now destruct (normalize_all uris).
  - destruct (archive_file_uris archive) as [uris |]; [| reflexivity].
    pose proof (normalize_all_full uris) as Hfull.
    destruct (normalize_all uris) as [| url rest]; [reflexivity |].
    now inversion Hfull.
Qed.

(** X27.  The dashboard and the chat panel show the same files: for an
    archive that has the key [file_uris], the item [App] builds and the item
    the chat panel builds have the same id, title, tags, file URIs and file
    URL. *)
Theorem converters_agree_on_files (archive : Archive) (uris : list JsValue) :
  archive_file_uris archive = Some uris ->
  let loaded := App.mapArchive archive in
  let found := toArchiveItem archive in
  App.id loaded = item_id found /\
  App.title loaded = item_title found /\
  App.tags loaded = item_tags found /\
  App.file_uris loaded = item_file_uris found /\
  App.fileUrl loaded = item_fileUrl found.
Proof.
  intros Huris. cbv zeta. unfold App.mapArchive, toArchiveItem, uris_of.
  rewrite Huris.
  cbn [App.id App.title App.tags App.file_uris App.fileUrl
       item_id item_title item_tags item_file_uris item_fileUrl].
  repeat split.
  pose proof (normalize_all_full uris) as Hfull.
  destruct (normalize_all uris) as [| url rest]; [reflexivity |].
  inversion Hfull as [| ? ? Hurl _]; subst.
  cbn [first_or]. destruct url; [discriminate Hurl | reflexivity].
Qed.

(** *** Message ids *)

Lemma toString_inj (a b : Z) : toString a = toString b -> a = b.
Proof.
  unfold toString. intros H. apply DecimalZ.to_int_inj.
  assert (Hisi : forall z : Z,
             NilZero.int_of_string (NilZero.string_of_int (Z.to_int z))
             = Some (Z.to_int z)).
  { intros z. apply NilZero.isi; destruct z as [| p | p]; cbn;
      try discriminate; intros [= Hnil];
      now apply (Unsigned.to_uint_nonnil p). }
  pose proof (Hisi a) as Ha. rewrite H, Hisi in Ha. now injection Ha.
Qed.

(** X28.  Within one call of [handleSend], the user message and the
    assistant message get different ids whenever the clock does not go
    backwards between the two: the first is the clock reading, the second the
    later reading plus one, both in decimal. *)
Theorem handleSend_message_ids_differ (browser : Browser)
  (panel : PanelState) :
  trim (input panel) <> EmptyString \/ selectedFiles panel <> [] ->
  clock browser 0 <= clock browser 2 ->
  exists userMessage reply : ChatMessage,
    appended (handleSend browser panel) = [userMessage; reply] /\
    msg_id userMessage = toString (clock browser 0) /\
    msg_id reply = toString (clock browser 2 + 1) /\
    msg_id userMessage <> msg_id reply.
Proof.
  intros Hsome Hclock.
  assert (Hids : toString (clock browser 0) <> toString (clock browser 2 + 1)).
  { intros H. apply toString_inj in H. lia. }
  unfold handleSend.
  destruct (match trim (input panel) with
            | EmptyString => true
            | String _ _ => false
            end && Nat.eqb (List.length (selectedFiles panel)) 0) eqn:Hguard.
  { apply andb_prop in Hguard. destruct Hguard as [Hq Hf].
    destruct Hsome as [Hs | Hs].
    - destruct (trim (input panel)); [now elim Hs | discriminate Hq].
    - destruct (selectedFiles panel); [now elim Hs | discriminate Hf]. }
  rewrite !appended_app. cbn [appended flat_map app].
  destruct (aiSearchArchives browser (trim (input panel))) as [error | result].
  - cbn. eexists; eexists. split; [reflexivity |]. cbn. repeat split. exact Hids.
  - unfold on_result.
    destruct (String.eqb (response_type result) "message").
    + cbn. eexists; eexists. split; [reflexivity |]. cbn. repeat split.
      exact Hids.
    + destruct (map toArchiveItem (archives result));
        cbn; eexists; eexists; (split; [reflexivity |]); cbn; repeat split;
        exact Hids.
Qed.

(* ===================================================================== *)
(** ** Part XIV.  The further properties at concrete inputs               *)
(* ===================================================================== *)

Lemma refinement_requested_iff_witness :
  is_search_call first_request = true /\
  (snd (wrap_tool_call default_middleware first_request (finds_nothing 0%nat)
          first_store)
   = inr (RefinementRequest
            {| content := refinement_content 0%nat [Some "batik"] (Some "batik");
               tool_call_id := "call_1" |}) <->
   exists result : ToolValue,
     finds_nothing 0%nat first_request = inr result /\
     _evaluate_results default_middleware (archives_of result) = false /\
     get_attempt_count (agent_state first_store) + 1
     < max_attempts default_middleware /\
     {| content := refinement_content 0%nat [Some "batik"] (Some "batik");
        tool_call_id := "call_1" |}
     = {| content :=
            refinement_content
              (List.length (archives_of result))
              (get_previous_queries (agent_state first_store)
                 ++ [tc_args_query (tool_call first_request)])%list
              (if (get_attempt_count (agent_state first_store) =? 0)%Z
               then tc_args_query (tool_call first_request)
               else original_user_query (agent_state first_store));
          tool_call_id := tc_id (tool_call first_request) |}).
Proof.
  split; [reflexivity |].
  apply (refinement_requested_iff default_middleware first_request
           (finds_nothing 0%nat) first_store
           {| content := refinement_content 0%nat [Some "batik"] (Some "batik");
              tool_call_id := "call_1" |}).
  reflexivity.
Defined.

Lemma good_result_ends_session_witness :
  session_after default_middleware finds_good lengthening_agent
                (Some "batik") "call_1" 0%nat
  = AgentCalls first_store first_request /\
  finds_good (List.length (tool_log first_store)) first_request
  = inr good_result /\
  _evaluate_results default_middleware (archives_of good_result) = true /\
  (0 < 2)%nat /\
  session_after default_middleware finds_good lengthening_agent
                (Some "batik") "call_1" 2%nat
  = AgentHolds
      {| agent_state := state_after_search first_request
                          (agent_state first_store);
         tool_log := (tool_log first_store ++ [first_request])%list |}
      good_result.
Proof.
  split; [reflexivity |]. split; [reflexivity |]. split; [reflexivity |].
  split; [lia |].
  apply (good_result_ends_session default_middleware finds_good
           lengthening_agent (Some "batik") "call_1" 0%nat first_store
           first_request good_result eq_refl eq_refl eq_refl 2%nat).
  lia.
Defined.

Lemma spent_budget_disables_refinement_witness :
  is_search_call first_request = true /\
  finds_nothing 0%nat first_request = inr (VTuple "No archives found." []) /\
  max_attempts default_middleware
  <= get_attempt_count (agent_state spent_store) + 1 /\
  let (s', reply) :=
    wrap_tool_call default_middleware first_request (finds_nothing 0%nat)
      spent_store in
  reply = inr (ToolResult (VTuple "No archives found." [])) /\
  get_attempt_count (agent_state s')
  = get_attempt_count (agent_state spent_store) + 1 /\
  (get_attempt_count (agent_state spent_store) <> 0 ->
   original_user_query (agent_state s')
   = original_user_query (agent_state spent_store)).
Proof.
  split; [reflexivity |]. split; [reflexivity |]. split; [cbn; lia |].
  apply (spent_budget_disables_refinement default_middleware first_request
           (finds_nothing 0%nat) spent_store (VTuple "No archives found." [])
           eq_refl eq_refl).
  cbn; lia.
Defined.

Lemma evaluate_results_permutation_witness :
  Permutation [scored "a" 0.2%float; scored "b" 0.7%float]
              [scored "b" 0.7%float; scored "a" 0.2%float] /\
  _evaluate_results default_middleware
    [scored "a" 0.2%float; scored "b" 0.7%float]
  = _evaluate_results default_middleware
      [scored "b" 0.7%float; scored "a" 0.2%float].
Proof.
  split; [apply perm_swap |].
  apply (evaluate_results_permutation default_middleware). apply perm_swap.
Defined.

Lemma evaluate_results_missing_similarity_witness :
  [unscored] <> [] /\
  (forall archive, In archive [unscored] -> similarity archive = None) /\
  _evaluate_results default_middleware [unscored]
  = (min_similarity_threshold default_middleware <=? 0)%float.
Proof.
  assert (Hnone : forall archive,
             In archive [unscored] -> similarity archive = None).
  { intros archive [<- | []]. reflexivity. }
  split; [discriminate |]. split; [exact Hnone |].
  apply (evaluate_results_missing_similarity default_middleware [unscored]);
    [discriminate | exact Hnone].
Defined.

Lemma non_tuple_result_counts_as_empty_witness :
  is_search_call first_request = true /\
  (fun _ : ToolRequest => @inr PyExn ToolValue (VOther "unavailable"))
    first_request = inr (VOther "unavailable") /\
  let (s', reply) :=
    wrap_tool_call default_middleware first_request
      (fun _ => inr (VOther "unavailable")) first_store in
  get_attempt_count (agent_state s')
  = get_attempt_count (agent_state first_store) + 1 /\
  (get_attempt_count (agent_state first_store) + 1
   < max_attempts default_middleware ->
   exists m : ToolMessage,
     reply = inr (RefinementRequest m) /\
     nth_error (content m) 1 = Some (FmtLen 0)) /\
  (max_attempts default_middleware
   <= get_attempt_count (agent_state first_store) + 1 ->
   reply = inr (ToolResult (VOther "unavailable"))).
Proof.
  split; [reflexivity |]. split; [reflexivity |].
  apply (non_tuple_result_counts_as_empty default_middleware first_request
           (fun _ => inr (VOther "unavailable")) first_store "unavailable");
    reflexivity.
Defined.

Lemma file_uris_shadow_storage_paths_witness :
  archive_file_uris (no_files None) = Some [] /\
  toArchiveItem (no_files (Some [JsString "https://cdn.example/b.mp4"]))
  = toArchiveItem (no_files None) /\
  item_fileUrl (toArchiveItem (no_files None))
  = "https://via.placeholder.com/400".
Proof.
  pose proof (file_uris_shadow_storage_paths (no_files None)
                (no_files (Some [JsString "https://cdn.example/b.mp4"])) []
                eq_refl eq_refl eq_refl eq_refl eq_refl eq_refl eq_refl
                eq_refl eq_refl) as [Hsame Hempty].
  split; [reflexivity |]. split; [exact Hsame |].
  exact (proj1 (Hempty eq_refl)).
Defined.

Lemma batik_panel_has_text :
  trim (input batik_panel) <> EmptyString \/ selectedFiles batik_panel <> [].
Proof. left. cbn. discriminate. Qed.

Lemma handleSend_completes_witness :
  (trim (input batik_panel) <> EmptyString \/ selectedFiles batik_panel <> []) /\
  exists userMessage reply : ChatMessage,
    msg_role userMessage = user /\
    msg_role reply = assistant /\
    panel_after batik_panel (handleSend failing_browser batik_panel)
    = {| messages := (messages batik_panel ++ [userMessage; reply])%list;
         input := EmptyString;
         selectedFiles := [];
         isTyping := false |} /\
    api_calls (handleSend failing_browser batik_panel)
    = [trim (input batik_panel)].
Proof.
  split; [exact batik_panel_has_text |].
  apply (handleSend_completes failing_browser batik_panel).
  exact batik_panel_has_text.
Defined.

Lemma handleSend_files_only_witness :
  trim (input files_panel) = EmptyString /\
  selectedFiles files_panel <> [] /\
  exists (userMessage : ChatMessage) (attachments : list Attachment),
    nth_error (handleSend failing_browser files_panel) 2
    = Some (AppendMessage userMessage) /\
    msg_content userMessage = "Uploaded files for analysis" /\
    msg_files userMessage = Some attachments /\
    map att_name attachments = map file_name (selectedFiles files_panel) /\
    map att_type attachments = map file_type (selectedFiles files_panel) /\
    api_calls (handleSend failing_browser files_panel) = [EmptyString].
Proof.
  split; [reflexivity |]. split; [discriminate |].
  apply (handleSend_files_only failing_browser files_panel);
    [reflexivity | discriminate].
Defined.

Lemma message_response_shows_text_only_witness :
  aiSearchArchives (browser_answering greeting_response)
                   (trim (input batik_panel)) = inr greeting_response /\
  response_type greeting_response = "message" /\
  exists userMessage reply : ChatMessage,
    appended (handleSend (browser_answering greeting_response) batik_panel)
    = [userMessage; reply] /\
    msg_content reply = GREETING_MESSAGE /\
    toasts (handleSend (browser_answering greeting_response) batik_panel) = [].
Proof.
  split; [reflexivity |]. split; [reflexivity |].
  destruct (message_response_shows_text_only
              (browser_answering greeting_response) batik_panel
              greeting_response batik_panel_has_text eq_refl eq_refl)
    as (um & reply & Happ & _ & _ & _ & Htext & Htoasts).
  exists um, reply. split; [exact Happ |]. split; [| exact Htoasts].
  apply (Htext GREETING_MESSAGE); [reflexivity | discriminate].
Defined.

Lemma results_response_shows_every_archive_witness :
  aiSearchArchives (browser_answering songket_response)
                   (trim (input batik_panel)) = inr songket_response /\
  response_type songket_response <> "message" /\
  archives songket_response <> [] /\
  exists (userMessage reply : ChatMessage) (items : list ArchiveItem),
    appended (handleSend (browser_answering songket_response) batik_panel)
    = [userMessage; reply] /\
    msg_archiveResults reply = Some items /\
    items = map toArchiveItem (archives songket_response) /\
    map item_id items = map archive_id (archives songket_response) /\
    map item_title items = map archive_title (archives songket_response) /\
    toasts (handleSend (browser_answering songket_response) batik_panel)
    = [(toast_success,
        "Found " ++ nat_toString (List.length (archives songket_response))
                 ++ " matching archive(s)")].
Proof.
  split; [reflexivity |]. split; [discriminate |]. split; [discriminate |].
  apply (results_response_shows_every_archive
           (browser_answering songket_response) batik_panel songket_response
           batik_panel_has_text eq_refl);
    discriminate.
Defined.

Lemma results_response_without_archives_witness :
  aiSearchArchives (browser_answering empty_response)
                   (trim (input batik_panel)) = inr empty_response /\
  response_type empty_response <> "message" /\
  archives empty_response = [] /\
  toasts (handleSend (browser_answering empty_response) batik_panel)
  = [(toast_info, "No matching archives found. Try different keywords.")].
Proof.
  split; [reflexivity |]. split; [discriminate |]. split; [reflexivity |].
  destruct (results_response_without_archives
              (browser_answering empty_response) batik_panel empty_response
              batik_panel_has_text eq_refl)
    as (um & reply & _ & _ & _ & _ & Hnull);
    [discriminate | reflexivity |].
  exact (proj2 (Hnull (or_introl eq_refl))).
Defined.

Lemma onSearch_agrees_with_handleSend_witness :
  trim (input typed_panel) = input typed_panel /\
  input typed_panel <> EmptyString /\
  selectedFiles typed_panel = [] /\
  skipn 4 (handleSend failing_browser typed_panel)
  = skipn 3 (onSearch failing_browser (input typed_panel)).
Proof.
  split; [reflexivity |]. split; [discriminate |]. split; [reflexivity |].
  apply (onSearch_agrees_with_handleSend failing_browser typed_panel);
    [reflexivity | discriminate | reflexivity].
Defined.

Lemma converters_agree_on_files_witness :
  archive_file_uris with_files
  = Some [JsString "uploads/c.png";
          JsObject (JsString "https://cdn.example/c.png") JsUndefined] /\
  App.file_uris (App.mapArchive with_files)
  = item_file_uris (toArchiveItem with_files) /\
  App.fileUrl (App.mapArchive with_files)
  = item_fileUrl (toArchiveItem with_files).
Proof.
  split; [reflexivity |].
  destruct (converters_agree_on_files with_files _ eq_refl)
    as (_ & _ & _ & Huris & Hurl).
  split; [exact Huris | exact Hurl].
Defined.

Lemma handleSend_message_ids_differ_witness :
  (trim (input batik_panel) <> EmptyString \/ selectedFiles batik_panel <> []) /\
  clock failing_browser 0 <= clock failing_browser 2 /\
  exists userMessage reply : ChatMessage,
    appended (handleSend failing_browser batik_panel) = [userMessage; reply] /\
    msg_id userMessage = toString (clock failing_browser 0) /\
    msg_id reply = toString (clock failing_browser 2 + 1) /\
    msg_id userMessage <> msg_id reply.
Proof.
  split; [exact batik_panel_has_text |]. split; [cbn; lia |].
  apply (handleSend_message_ids_differ failing_browser batik_panel);
    [exact batik_panel_has_text | cbn; lia].
Defined.

(* ===================================================================== *)
(** ** Part XV.  Exhaustion and transport failure, end to end             *)
(* ===================================================================== *)


(** The agent is about to call the tool only within the budget. *)
Lemma calls_within_budget (self : SearchRefinementMiddleware) (env : Env)
  (agent : Agent) (query : option string) (id : string) (n : nat)
  (s : Store) (request : ToolRequest) :
  session_after self env agent query id n = AgentCalls s request ->
  (n < Z.to_nat (Z.max 1 (max_attempts self)))%nat.
Proof.
  assert (Hinv : forall k,
            match session_after self env agent query id k with
            | AgentCalls s' _ =>
                get_attempt_count (agent_state s') = Z.of_nat k /\
                (k = 0%nat \/ Z.of_nat k < max_attempts self)
            | AgentHolds _ _ | ToolFailed _ _ => True
            end).
  { induction k as [| k IH]; [split; [reflexivity | now left] |].
    pose proof (session_requests_are_searches self env agent query id k)
      as Hname.
    unfold session_after in *. rewrite Nat.iter_succ.
    destruct (Nat.iter k (session_step self env agent)
                (session_start query id))
      as [s0 r0 | s0 v0 | s0 e0]; [| exact I | exact I].
    destruct IH as [Hcount _].
    destruct (session_step_search self env agent s0 r0 (Hname s0 r0 eq_refl));
      [exact I | exact I |].
    cbn [agent_state]. rewrite attempt_count_after. split; [lia |].
    right. lia. }
  intros Hn. specialize (Hinv n). rewrite Hn in Hinv.
  destruct Hinv as [_ [-> | Hlt]]; lia.
Qed.




(** C7.  When the search tool raises on some attempt of a search turn, the
    loop stops there: from then on the session is in its failed state, the
    failing request is the last one that reached the tool, and neither the
    attempt counter nor the list of queries tried moves.  The controller
    answers with that exception, so with no [SearchResponse] at all, of type
    message or of any other; the request of the chat panel therefore fails,
    and the panel, which sent exactly one request, shows a failure of its
    own: an assistant message "Sorry, search failed: ... Please try again.",
    which is not the exhaustion message and carries no results, and the
    error toast, which no answer of the search service ever raises. *)
Theorem transport_failure_is_not_retried
  (self : SearchRefinementMiddleware) (env : Env) (agent : Agent)
  (classify : string -> Intent) (generate : string -> option string * string)
  (failure : PyExn -> Thrown) (now : nat -> Z) (urls : nat -> File -> string)
  (panel : PanelState) (store : Store)
  (n : nat) (s : Store) (request : ToolRequest) (e : PyExn) :
  trim (input panel) <> EmptyString \/ selectedFiles panel <> [] ->
  classify (trim (input panel)) = HERITAGE_SEARCH ->
  session_after self env agent
    (fst (generate (trim (input panel)))) (snd (generate (trim (input panel))))
    n
  = AgentCalls s request ->
  env (List.length (tool_log s)) request = inl e ->
  let backend := search classify (search_path self env agent generate) in
  let browser := {| clock := now;
                    createObjectURL := urls;
                    aiSearchArchives := serve backend failure |} in
  (forall m : nat, (n < m)%nat ->
     exists s' : Store,
       session_after self env agent
         (fst (generate (trim (input panel))))
         (snd (generate (trim (input panel)))) m
       = ToolFailed s' e /\
       tool_log s' = (tool_log s ++ [request])%list /\
       get_attempt_count (agent_state s') = get_attempt_count (agent_state s) /\
       get_previous_queries (agent_state s')
       = get_previous_queries (agent_state s)) /\
  snd (backend (trim (input panel)) store) = inl e /\
  aiSearchArchives browser (trim (input panel)) = inl (failure e) /\
  api_calls (handleSend browser panel) = [trim (input panel)] /\
  toasts (handleSend browser panel)
  = [(toast_error, "Search failed. Please try again.")] /\
  (exists userMessage shown : ChatMessage,
     appended (handleSend browser panel) = [userMessage; shown] /\
     msg_role userMessage = user /\
     msg_role shown = assistant /\
     msg_content shown
     = "Sorry, search failed: "
         ++ match failure e with
            | ThrownError error_message => error_message
            | ThrownOther => "Unknown error"
            end
         ++ ". Please try again." /\
     msg_content shown <> EXHAUSTED_MESSAGE /\
     msg_archiveResults shown = None) /\
  (forall (answering : Browser) (result : SearchResponse),
     aiSearchArchives answering (trim (input panel)) = inr result ->
     toasts (handleSend answering panel) <> toasts (handleSend browser panel)).
Proof.
  intros Hsome Hsearch Hn He. cbv zeta.
  pose proof (calls_within_budget self env agent _ _ n s request Hn) as Hlt.
  pose proof (failure_ends_session self env agent _ _ n s request e Hn He)
    as Hfailed.
  assert (Hbackend : forall st : Store,
             snd (search classify (search_path self env agent generate)
                    (trim (input panel)) st) = inl e).
  { intros st. unfold search, refinement_controller, bind, search_path.
    rewrite Hsearch. rewrite (Hfailed _ Hlt). reflexivity. }
  assert (Hthrown : aiSearchArchives
                      {| clock := now;
                         createObjectURL := urls;
                         aiSearchArchives :=
                           serve (search classify
                                    (search_path self env agent generate))
                                 failure |}
                      (trim (input panel)) = inl (failure e)).
  { cbn [aiSearchArchives]. unfold serve. now rewrite Hbackend. }
  destruct (handleSend_sends
              {| clock := now;
                 createObjectURL := urls;
                 aiSearchArchives :=
                   serve (search classify
                            (search_path self env agent generate))
                         failure |} panel Hsome) as (um & Hrole & Hsend).
  rewrite Hthrown in Hsend.
  assert (Htoasts : toasts (handleSend
                      {| clock := now;
                         createObjectURL := urls;
                         aiSearchArchives :=
                           serve (search classify
                                    (search_path self env agent generate))
                                 failure |} panel)
                    = [(toast_error, "Search failed. Please try again.")]).
  { rewrite Hsend. reflexivity. }
  split; [| split; [| split; [| split; [| split; [| split]]]]].
  - intros m Hm. rewrite (Hfailed m Hm).
    eexists; split; [reflexivity |]. cbn [tool_log agent_state].
    rewrite attempt_count_before, previous_queries_before. repeat split.
  - apply Hbackend.
  - exact Hthrown.
  - rewrite Hsend. reflexivity.
  - exact Htoasts.
  - rewrite Hsend. cbn. eexists; eexists. split; [reflexivity |].
    cbn. repeat split; try assumption.
    apply failure_text_is_not_exhaustion.
  - intros answering result Hanswer Heq. rewrite Htoasts in Heq.
    destruct (handleSend_sends answering panel Hsome) as (um' & _ & Hsend').
    rewrite Hanswer in Hsend'. rewrite Hsend' in Heq.
    rewrite !toasts_app in Heq. cbn in Heq. rewrite app_nil_r in Heq.
    apply (on_result_toasts answering result).
    fold (toasts (on_result answering result)) in Heq.
    rewrite Heq. now left.
Qed.

Lemma transport_failure_is_not_retried_witness :
  (trim (input batik_panel) <> EmptyString \/ selectedFiles batik_panel <> []) /\
  always_search (trim (input batik_panel)) = HERITAGE_SEARCH /\
  session_after default_middleware times_out lengthening_agent
    (fst (verbatim (trim (input batik_panel))))
    (snd (verbatim (trim (input batik_panel)))) 0%nat
  = AgentCalls first_store first_request /\
  times_out (List.length (tool_log first_store)) first_request
  = inl search_timeout /\
  session_after default_middleware times_out lengthening_agent
    (fst (verbatim (trim (input batik_panel))))
    (snd (verbatim (trim (input batik_panel)))) 3%nat
  = ToolFailed {| agent_state :=
                    set_original_user_query (Some "batik") fresh_state;
                  tool_log := [first_request] |} search_timeout /\
  aiSearchArchives degraded_browser (trim (input batik_panel))
  = inl (ThrownError "search timed out") /\
  api_calls (handleSend degraded_browser batik_panel) = ["batik"] /\
  toasts (handleSend degraded_browser batik_panel)
  = [(toast_error, "Search failed. Please try again.")].
Proof.
  assert (Hinput : trim (input batik_panel) <> EmptyString \/
                   selectedFiles batik_panel <> []).
  { left. cbn. discriminate. }
  pose proof (transport_failure_is_not_retried default_middleware times_out
                lengthening_agent always_search verbatim as_error
                (fun k => 1700000000000 + Z.of_nat k)
                (fun _ file => "blob:" ++ file_name file)
                batik_panel first_store 0%nat first_store first_request
                search_timeout Hinput eq_refl eq_refl eq_refl)
    as (Hsession & _ & Hthrown & Hcalls & Htoasts & _).
  split; [exact Hinput |]. split; [reflexivity |]. split; [reflexivity |].
  split; [reflexivity |]. split; [reflexivity |].
  split; [exact Hthrown |]. split; [exact Hcalls | exact Htoasts].
Defined.
